(** * pyadtsecurehome.client — the ADT Secure Home API client

    A shallow embedding of [src/pyadtsecurehome/client.py].  Every method of
    [PyAdtSecureHome] is a computation in a small state-and-exception monad
    over the objects the Python code touches:

    - the module-level dictionary [STD_PARAMS] (imported from [.constants]),
      which every method binds to the local name [_params] and then writes
      through;
    - the attributes of [self];
    - the [requests] sessions that [close_session] opens and closes.

    The HTTP transport is the environment: a function from the request a
    method issues to what [requests] does with it. *)

From stdpp Require Import gmap strings list fin_maps.
From Stdlib Require Import ZArith.

Set Warnings "-register-all".

Local Open Scope Z_scope.

(** ** Python values *)

(** The values the client handles: constructor arguments, query parameters
    and decoded JSON.  A float is kept as its literal; the client never
    computes with one. *)
Inductive pyval : Type :=
  | PyNone
  | PyBool (b : bool)
  | PyInt (z : Z)
  | PyFloat (lit : string)
  | PyStr (s : string)
  | PyList (l : list pyval)
  | PyDict (d : gmap string pyval).

(** ** Exceptions *)

(** The exception classes that can leave a method.  The first group are the
    classes of [requests]; [requests_ProxyError], [requests_SSLError] and
    [requests_ConnectTimeout] are subclasses of [requests.ConnectionError],
    [requests_ReadTimeout] and [requests_TooManyRedirects] are not.  The last
    three are the classes of [.exceptions]. *)
Inductive exn : Type :=
  | requests_ConnectionError
  | requests_ProxyError
  | requests_SSLError
  | requests_ConnectTimeout
  | requests_ReadTimeout
  | requests_TooManyRedirects
  | requests_HTTPError
  | ValueError (msg : string)
  | KeyError (key : string)
  | TypeError
  | AttributeError
  | InvalidURL (msg : string)
  | HTTPError
  | PyAdtSecureHomeError (msg : string).

(** [isinstance(err, requests.ConnectionError)] *)
Definition isinstance_ConnectionError (err : exn) : bool :=
  match err with
  | requests_ConnectionError | requests_ProxyError
  | requests_SSLError | requests_ConnectTimeout => true
  | _ => false
  end.

(** [isinstance(err, requests.HTTPError)] *)
Definition isinstance_HTTPError (err : exn) : bool :=
  match err with
  | requests_HTTPError => true
  | _ => false
  end.

(** [isinstance(err, ValueError)] *)
Definition isinstance_ValueError (err : exn) : bool :=
  match err with
  | ValueError _ => true
  | _ => false
  end.

(** [str(err)] for the one class the client formats. *)
Definition str_exn (err : exn) : string :=
  match err with
  | ValueError msg => msg
  | _ => ""
  end.

(** ** The transport *)

Inductive http_method : Type := GET | POST.

(** What one call of [self._session.get] / [self._session.post] hands to
    [requests]: the session it is issued on, the verb, the URL and the three
    keyword arguments. *)
Record Request : Type := mkRequest {
  req_session : nat;
  req_method : http_method;
  req_url : string;
  req_allow_redirects : bool;
  req_params : gmap string pyval;
  req_timeout : pyval
}.

(** A [requests.Response]: [status_code], [text], and what [json()] does,
    either the reason of the decode failure or the decoded value. *)
Record Response : Type := mkResponse {
  status_code : Z;
  text : string;
  json_body : string + pyval
}.

Inductive Outcome : Type :=
  | Respond (r : Response)
  | Raises (err : exn).

Definition Transport : Type := Request -> Outcome.

(** ** State *)

(** A [requests.Session]: whether [close()] was called on it, and its
    default headers. *)
Record Session : Type := mkSession {
  sess_closed : bool;
  sess_headers : gmap string string
}.

(** The attributes of [self]. *)
Record Client : Type := mkClient {
  _email : pyval;
  _password : pyval;
  _session : option nat;
  _token : pyval;
  _timeout : pyval
}.

(** The program state: the contents of the dictionary object [STD_PARAMS],
    the sessions created so far (a session's handle is its index), and
    [self]. *)
Record State : Type := mkState {
  std_params : gmap string pyval;
  sessions : list Session;
  self : Client
}.

(** The only dictionary the client writes to is the module-level
    [STD_PARAMS]; a name bound to it is a reference to that one object. *)
Inductive dictref : Type := STD_PARAMS.

Definition deref (r : dictref) (st : State) : gmap string pyval :=
  match r with STD_PARAMS => std_params st end.

Definition store (r : dictref) (d : gmap string pyval) (st : State) : State :=
  match r with STD_PARAMS => mkState d (sessions st) (self st) end.

(** What a method does that its caller can see besides its result and the
    state: the requests it issued, the bodies it tried to decode, the
    sessions it closed and opened, in order. *)
Inductive Event : Type :=
  | HttpCall (q : Request)
  | JsonDecode (r : Response)
  | SessionClose (sid : nat)
  | SessionOpen (sid : nat).

(** ** The monad *)

Definition M (A : Type) : Type := State -> (exn + A) * State * list Event.

Definition ret {A} (a : A) : M A := fun st => (inr a, st, []).

Definition raise {A} (err : exn) : M A := fun st => (inl err, st, []).

Definition bind {A B} (c : M A) (k : A -> M B) : M B :=
  fun st =>
    match c st with
    | (inl err, st1, log1) => (inl err, st1, log1)
    | (inr a, st1, log1) =>
        match k a st1 with
        | (res, st2, log2) => (res, st2, log1 ++ log2)
        end
    end.

Declare Scope py_scope.
Delimit Scope py_scope with py.
Notation "x <- c ;; k" := (bind c (fun x => k))
  (at level 20, c at level 99, k at level 200) : py_scope.
Notation "c ;; k" := (bind c (fun _ => k))
  (at level 100, k at level 200, right associativity) : py_scope.
Local Open Scope py_scope.

(** [try: body / except ...:]; [handler err] is [None] when no clause
    matches [err], which then propagates. *)
Definition try_except {A} (body : M A) (handler : exn -> option (M A)) : M A :=
  fun st =>
    match body st with
    | (inl err, st1, log1) =>
        match handler err with
        | Some h =>
            match h st1 with
            | (res, st2, log2) => (res, st2, log1 ++ log2)
            end
        | None => (inl err, st1, log1)
        end
    | (inr a, st1, log1) => (inr a, st1, log1)
    end.

Definition emit (e : Event) : M unit := fun st => (inr tt, st, [e]).

(** [self.<attr>] *)
Definition getattr {A} (attr : Client -> A) : M A :=
  fun st => (inr (attr (self st)), st, []).

Definition setattr (upd : Client -> Client) : M unit :=
  fun st => (inr tt, mkState (std_params st) (sessions st) (upd (self st)), []).

Definition set_email (v : pyval) (c : Client) : Client :=
  mkClient v (_password c) (_session c) (_token c) (_timeout c).
Definition set_password (v : pyval) (c : Client) : Client :=
  mkClient (_email c) v (_session c) (_token c) (_timeout c).
Definition set_session (v : option nat) (c : Client) : Client :=
  mkClient (_email c) (_password c) v (_token c) (_timeout c).
Definition set_token (v : pyval) (c : Client) : Client :=
  mkClient (_email c) (_password c) (_session c) v (_timeout c).
Definition set_timeout (v : pyval) (c : Client) : Client :=
  mkClient (_email c) (_password c) (_session c) (_token c) v.

(** [d[key] = v] on a dictionary object *)
Definition dict_setitem (d : dictref) (key : string) (v : pyval) : M unit :=
  fun st => (inr tt, store d (<[key := v]> (deref d st)) st, []).

(** [d[key]] on a dictionary object *)
Definition dict_getitem (d : dictref) (key : string) : M pyval :=
  fun st =>
    match deref d st !! key with
    | Some v => (inr v, st, [])
    | None => (inl (KeyError key), st, [])
    end.

(** [v[key]] on a decoded JSON value, [key] a string: only a dictionary can
    be subscripted with one. *)
Definition getitem (v : pyval) (key : string) : M pyval :=
  match v with
  | PyDict d =>
      match d !! key with
      | Some x => ret x
      | None => raise (KeyError key)
      end
  | _ => raise TypeError
  end.

(** [v != s], [s] a string literal *)
Definition py_ne_str (v : pyval) (s : string) : bool :=
  match v with
  | PyStr t => negb (String.eqb t s)
  | _ => true
  end.

(** [v not in l], [l] a list of string literals *)
Definition py_not_in (v : pyval) (l : list string) : bool :=
  forallb (py_ne_str v) l.

(** [s + v], [s] a string *)
Definition str_add (s : string) (v : pyval) : M string :=
  match v with
  | PyStr t => ret (s +:+ t)
  | _ => raise TypeError
  end.

(** ** Module constants of [client.py] *)

Definition BASE_URL : string := "ids.trintel.co.za/Inhep-Impl-1.0-SNAPSHOT/".
Definition API_ENDPOINT_LOGIN : string := "/auth/login".
Definition API_ENDPOINT_CHECK_APP_VERSION : string := "/auth/checkAppVersion".
Definition API_ENDPOINT_SITE_NOTIFICATIONS : string := "/device/getSiteNotifications".
Definition API_ENDPOINT_SYNC_INFO : string := "/device/getSyncInfo".
Definition API_ENDPOINT_STATE_INFO : string := "/device/getStateInfo".
Definition API_ENDPOINT_NOTIFICATION_SUBSCRIPTIONS : string :=
  "/device/getNotificationSubscriptions".
Definition API_ENDPOINT_GET_USER_PREFERANCES : string := "/user/getUserPreferences".
Definition API_ENDPOINT_SET_USER_PREFERANCE : string := "/user/setUserPreference".
Definition API_ENDPOINT_SECURITY_COMPANIES : string := "/security-companies/list".
Definition API_ENDPOINT_STORE_GCM_REGISTRATION_ID : string :=
  "/user/storeGcmRegistrationId".
Definition API_ENDPOINT_ARM_SITE : string := "/device/armSite".

(** The line feed of the literal ["\nResponse was: "]. *)
Definition LF : string := String (Ascii.ascii_of_nat 10) EmptyString.

(** ** The class [PyAdtSecureHome] *)

Section PyAdtSecureHome.

(** [str(v)], the conversion an f-string applies to a decoded payload. *)
Variable py_str : pyval -> string.

(** [REQUEST_HEADER] of [.constants], which is not among the sources. *)
Variable REQUEST_HEADER : gmap string string.

(** The default headers [requests.session()] gives a new session. *)
Variable new_session_headers : gmap string string.

(** What the network does with each request of the call at hand. *)
Variable net : Transport.

(** *** [requests] *)

(** [self._session.get(url, allow_redirects=.., params=.., timeout=..)] and
    [self._session.post(...)]: with [self._session] still [None] the
    attribute lookup fails; otherwise the request goes out with the contents
    the dictionary [params] has at that moment. *)
Definition session_request (m : http_method) (url : string)
    (allow_redirects : bool) (params : dictref) (timeout : Client -> pyval)
    : M Response :=
  fun st =>
    match _session (self st) with
    | None => (inl AttributeError, st, [])
    | Some sid =>
        let q := mkRequest sid m url allow_redirects (deref params st)
                   (timeout (self st)) in
        match net q with
        | Respond r => (inr r, st, [HttpCall q])
        | Raises err => (inl err, st, [HttpCall q])
        end
    end.

Definition session_get := session_request GET.
Definition session_post := session_request POST.

(** [req.raise_for_status()]: [requests] raises its [HTTPError] for the
    client-error and server-error classes, [400 <= status_code < 600], and
    for no other status. *)
Definition raise_for_status (req : Response) : M unit :=
  if (400 <=? status_code req) && (status_code req <? 600)
  then raise requests_HTTPError
  else ret tt.

(** [req.json()] *)
Definition json (req : Response) : M pyval :=
  emit (JsonDecode req);;
  match json_body req with
  | inl reason => raise (ValueError reason)
  | inr v => ret v
  end.

(** [self._session.close()] *)
Definition session_close (sid : nat) : M unit :=
  fun st =>
    (inr tt,
     mkState (std_params st)
       (alter (fun s => mkSession true (sess_headers s)) sid (sessions st))
       (self st),
     [SessionClose sid]).

(** [requests.session()] *)
Definition requests_session : M nat :=
  fun st =>
    let sid := length (sessions st) in
    (inr sid,
     mkState (std_params st)
       (sessions st ++ [mkSession false new_session_headers])
       (self st),
     [SessionOpen sid]).

(** [self._session.headers.update(h)] *)
Definition session_headers_update (h : gmap string string) : M unit :=
  fun st =>
    match _session (self st) with
    | None => (inl AttributeError, st, [])
    | Some sid =>
        (inr tt,
         mkState (std_params st)
           (alter (fun s => mkSession (sess_closed s) (h ∪ sess_headers s))
              sid (sessions st))
           (self st),
         [])
    end.

(** *** The two [except] blocks every API method repeats *)

(** [except requests.ConnectionError as err: raise InvalidURL(...) from err]
    [except requests.HTTPError as err: raise HTTPError from err] *)
Definition except_requests {A} (err : exn) : option (M A) :=
  if isinstance_ConnectionError err
  then Some (raise (InvalidURL "A Invalid URL or Proxy error occured"))
  else if isinstance_HTTPError err
  then Some (raise HTTPError)
  else None.

(** [except ValueError as err: raise PyAdtSecureHomeError(...) from err] *)
Definition except_ValueError {A} (req : Response) (err : exn) : option (M A) :=
  if isinstance_ValueError err
  then Some (raise (PyAdtSecureHomeError
               ("Impossible to decode response: " +:+ str_exn err
                +:+ LF +:+ "Response was: " +:+ text req)))
  else None.

(** *** Session lifecycle *)

Definition close_session : M pyval :=
  s <- getattr _session;;
  match s with
  | Some sid => session_close sid
  | None => ret tt
  end;;
  sid <- requests_session;;
  setattr (set_session (Some sid));;
  session_headers_update REQUEST_HEADER;;
  ret PyNone.

Definition logout : M pyval :=
  close_session;;
  ret PyNone.

Definition __init__ (email password timeout token : pyval) : M pyval :=
  setattr (set_email email);;
  setattr (set_password password);;
  setattr (set_session None);;
  close_session;;
  setattr (set_token token);;
  setattr (set_timeout timeout);;
  ret PyNone.

(** *** The API methods *)

Definition login : M pyval :=
  let _params := STD_PARAMS in
  email <- getattr _email;;
  dict_setitem _params "email" email;;
  password <- getattr _password;;
  dict_setitem _params "password" password;;
  req <- try_except
           (req <- session_get ("https://" +:+ BASE_URL +:+ API_ENDPOINT_LOGIN)
                     false _params _timeout;;
            raise_for_status req;;
            ret req)
           except_requests;;
  _json_result <- try_except (json req) (except_ValueError req);;
  status <- getitem _json_result "status";;
  if py_ne_str status "SUCCESS"
  then raise (PyAdtSecureHomeError ("Login error: " +:+ py_str _json_result))
  else
    token <- getitem _json_result "token";;
    setattr (set_token token);;
    ret _json_result.

Definition check_app_version : M pyval :=
  let _params := STD_PARAMS in
  token <- getattr _token;;
  dict_setitem _params "token" token;;
  imei <- dict_getitem STD_PARAMS "imei";;
  dict_setitem _params "clientImei" imei;;
  req <- try_except
           (req <- session_get
                     ("https://" +:+ BASE_URL +:+ API_ENDPOINT_CHECK_APP_VERSION)
                     false _params _timeout;;
            raise_for_status req;;
            ret req)
           except_requests;;
  _json_result <- try_except (json req) (except_ValueError req);;
  status <- getitem _json_result "status";;
  if py_ne_str status "SUCCESS"
  then raise (PyAdtSecureHomeError
                ("Error checking app version from api: " +:+ py_str _json_result))
  else ret _json_result.

Definition site_notifications : M pyval :=
  let _params := STD_PARAMS in
  token <- getattr _token;;
  dict_setitem _params "token" token;;
  req <- try_except
           (req <- session_get
                     ("https://" +:+ BASE_URL +:+ API_ENDPOINT_SITE_NOTIFICATIONS)
                     false _params _timeout;;
            raise_for_status req;;
            ret req)
           except_requests;;
  _json_result <- try_except (json req) (except_ValueError req);;
  status <- getitem _json_result "status";;
  if py_ne_str status "SUCCESS"
  then raise (PyAdtSecureHomeError
                ("Error getting site notifications from api: "
                 +:+ py_str _json_result))
  else ret _json_result.

Definition get_sync_info : M pyval :=
  let _params := STD_PARAMS in
  token <- getattr _token;;
  dict_setitem _params "token" token;;
  req <- try_except
           (req <- session_get
                     ("https://" +:+ BASE_URL +:+ API_ENDPOINT_SYNC_INFO)
                     false _params _timeout;;
            raise_for_status req;;
            ret req)
           except_requests;;
  _json_result <- try_except (json req) (except_ValueError req);;
  status <- getitem _json_result "status";;
  if py_ne_str status "SUCCESS"
  then raise (PyAdtSecureHomeError
                ("Error getting sync info from api: " +:+ py_str _json_result))
  else ret _json_result.

Definition get_state_info : M pyval :=
  let _params := STD_PARAMS in
  token <- getattr _token;;
  dict_setitem _params "token" token;;
  req <- try_except
           (req <- session_get
                     ("https://" +:+ BASE_URL +:+ API_ENDPOINT_STATE_INFO)
                     false _params _timeout;;
            raise_for_status req;;
            ret req)
           except_requests;;
  _json_result <- try_except (json req) (except_ValueError req);;
  status <- getitem _json_result "status";;
  if py_ne_str status "SUCCESS"
  then raise (PyAdtSecureHomeError
                ("Error getting state info from api: " +:+ py_str _json_result))
  else ret _json_result.

Definition get_notification_subscriptions : M pyval :=
  let _params := STD_PARAMS in
  token <- getattr _token;;
  dict_setitem _params "token" token;;
  req <- try_except
           (req <- session_get
                     ("https://" +:+ BASE_URL
                      +:+ API_ENDPOINT_NOTIFICATION_SUBSCRIPTIONS)
                     false _params _timeout;;
            raise_for_status req;;
            ret req)
           except_requests;;
  _json_result <- try_except (json req) (except_ValueError req);;
  status <- getitem _json_result "status";;
  if py_ne_str status "SUCCESS"
  then raise (PyAdtSecureHomeError
                ("Error getting notification subscriptions: "
                 +:+ py_str _json_result))
  else ret _json_result.

Definition get_user_preferences : M pyval :=
  let _params := STD_PARAMS in
  token <- getattr _token;;
  dict_setitem _params "token" token;;
  req <- try_except
           (req <- session_get
                     ("https://" +:+ BASE_URL
                      +:+ API_ENDPOINT_GET_USER_PREFERANCES)
                     false _params _timeout;;
            raise_for_status req;;
            ret req)
           except_requests;;
  _json_result <- try_except (json req) (except_ValueError req);;
  status <- getitem _json_result "status";;
  if py_ne_str status "SUCCESS"
  then raise (PyAdtSecureHomeError
                ("Error getting user preferences: " +:+ py_str _json_result))
  else ret _json_result.

Definition get_security_companies : M pyval :=
  let _params := STD_PARAMS in
  token <- getattr _token;;
  dict_setitem _params "token" token;;
  req <- try_except
           (req <- session_get
                     ("https://" +:+ BASE_URL +:+ API_ENDPOINT_SECURITY_COMPANIES)
                     false _params _timeout;;
            raise_for_status req;;
            ret req)
           except_requests;;
  _json_result <- try_except (json req) (except_ValueError req);;
  status <- getitem _json_result "status";;
  if py_ne_str status "SUCCESS"
  then raise (PyAdtSecureHomeError
                ("Failed to get security companies: " +:+ py_str _json_result))
  else ret _json_result.

Definition store_gcm_registrationid (gcm_id : pyval) : M pyval :=
  let _params := STD_PARAMS in
  token <- getattr _token;;
  dict_setitem _params "token" token;;
  dict_setitem _params "gcmId" gcm_id;;
  req <- try_except
           (req <- session_post
                     ("https://" +:+ BASE_URL
                      +:+ API_ENDPOINT_STORE_GCM_REGISTRATION_ID)
                     false _params _timeout;;
            raise_for_status req;;
            ret req)
           except_requests;;
  _json_result <- try_except (json req) (except_ValueError req);;
  status <- getitem _json_result "status";;
  if py_ne_str status "SUCCESS"
  then raise (PyAdtSecureHomeError
                ("Storing gcm id failed with: " +:+ py_str _json_result))
  else ret _json_result.

Definition set_user_preference (site_id partition_id new_code store_for : pyval)
    : M pyval :=
  if py_not_in store_for ["Arm"; "Bypass"]
  then raise (PyAdtSecureHomeError
                "Invalid selection, choose between Arm or Bypass")
  else
    let _params := STD_PARAMS in
    token <- getattr _token;;
    dict_setitem _params "token" token;;
    dict_setitem _params "siteId" site_id;;
    s1 <- str_add "site." site_id;;
    s2 <- str_add s1 (PyStr ".partition.");;
    s3 <- str_add s2 partition_id;;
    s4 <- str_add s3 (PyStr ".storeFor");;
    name <- str_add s4 store_for;;
    dict_setitem _params "name" (PyStr name);;
    dict_setitem _params "preference_value" new_code;;
    req <- try_except
             (req <- session_post
                       ("https://" +:+ BASE_URL
                        +:+ API_ENDPOINT_SET_USER_PREFERANCE)
                       false _params _timeout;;
              raise_for_status req;;
              ret req)
             except_requests;;
    _json_result <- try_except (json req) (except_ValueError req);;
    status <- getitem _json_result "status";;
    if py_ne_str status "SUCCESS"
    then raise (PyAdtSecureHomeError
                  ("Set user preferance failed with: " +:+ py_str _json_result))
    else ret _json_result.

Definition arm_site (arm pin partition_id site_id : pyval) : M pyval :=
  let _params := STD_PARAMS in
  token <- getattr _token;;
  dict_setitem _params "token" token;;
  dict_setitem _params "arm" arm;;
  dict_setitem _params "pin" pin;;
  dict_setitem _params "partitionId" partition_id;;
  dict_setitem _params "siteId" site_id;;
  req <- try_except
           (req <- session_get
                     ("https://" +:+ BASE_URL +:+ API_ENDPOINT_ARM_SITE)
                     false _params _timeout;;
            raise_for_status req;;
            ret req)
           except_requests;;
  _json_result <- try_except (json req) (except_ValueError req);;
  status <- getitem _json_result "status";;
  if py_ne_str status "SUCCESS"
  then raise (PyAdtSecureHomeError ("Arm site failed: " +:+ py_str _json_result))
  else ret _json_result.

(** *** The public interface *)

(** One call of a public method, with its arguments. *)
Inductive Op : Type :=
  | Login
  | CheckAppVersion
  | SiteNotifications
  | GetSyncInfo
  | GetStateInfo
  | GetNotificationSubscriptions
  | GetUserPreferences
  | GetSecurityCompanies
  | StoreGcmRegistrationid (gcm_id : pyval)
  | SetUserPreference (site_id partition_id new_code store_for : pyval)
  | ArmSite (arm pin partition_id site_id : pyval)
  | Logout
  | CloseSession.

Definition run_op (op : Op) : M pyval :=
  match op with
  | Login => login
  | CheckAppVersion => check_app_version
  | SiteNotifications => site_notifications
  | GetSyncInfo => get_sync_info
  | GetStateInfo => get_state_info
  | GetNotificationSubscriptions => get_notification_subscriptions
  | GetUserPreferences => get_user_preferences
  | GetSecurityCompanies => get_security_companies
  | StoreGcmRegistrationid gcm_id => store_gcm_registrationid gcm_id
  | SetUserPreference site_id partition_id new_code store_for =>
      set_user_preference site_id partition_id new_code store_for
  | ArmSite arm pin partition_id site_id =>
      arm_site arm pin partition_id site_id
  | Logout => logout
  | CloseSession => close_session
  end.

(** The verb and endpoint of the request each API method issues; the two
    session methods issue none. *)
Definition op_call (op : Op) : option (http_method * string) :=
  match op with
  | Login => Some (GET, API_ENDPOINT_LOGIN)
  | CheckAppVersion => Some (GET, API_ENDPOINT_CHECK_APP_VERSION)
  | SiteNotifications => Some (GET, API_ENDPOINT_SITE_NOTIFICATIONS)
  | GetSyncInfo => Some (GET, API_ENDPOINT_SYNC_INFO)
  | GetStateInfo => Some (GET, API_ENDPOINT_STATE_INFO)
  | GetNotificationSubscriptions =>
      Some (GET, API_ENDPOINT_NOTIFICATION_SUBSCRIPTIONS)
  | GetUserPreferences => Some (GET, API_ENDPOINT_GET_USER_PREFERANCES)
  | GetSecurityCompanies => Some (GET, API_ENDPOINT_SECURITY_COMPANIES)
  | StoreGcmRegistrationid _ => Some (POST, API_ENDPOINT_STORE_GCM_REGISTRATION_ID)
  | SetUserPreference _ _ _ _ => Some (POST, API_ENDPOINT_SET_USER_PREFERANCE)
  | ArmSite _ _ _ _ => Some (GET, API_ENDPOINT_ARM_SITE)
  | Logout | CloseSession => None
  end.

(** The text each API method puts in front of the payload when the vendor
    reports a status other than SUCCESS. *)
Definition error_prefix (op : Op) : string :=
  match op with
  | Login => "Login error: "
  | CheckAppVersion => "Error checking app version from api: "
  | SiteNotifications => "Error getting site notifications from api: "
  | GetSyncInfo => "Error getting sync info from api: "
  | GetStateInfo => "Error getting state info from api: "
  | GetNotificationSubscriptions => "Error getting notification subscriptions: "
  | GetUserPreferences => "Error getting user preferences: "
  | GetSecurityCompanies => "Failed to get security companies: "
  | StoreGcmRegistrationid _ => "Storing gcm id failed with: "
  | SetUserPreference _ _ _ _ => "Set user preferance failed with: "
  | ArmSite _ _ _ _ => "Arm site failed: "
  | Logout | CloseSession => ""
  end.

(** What an API method does with a payload whose status is SUCCESS: [login]
    stores the token first, the others return at once. *)
Definition on_success (op : Op) (_json_result : pyval) : M pyval :=
  match op with
  | Login =>
      token <- getitem _json_result "token";;
      setattr (set_token token);;
      ret _json_result
  | _ => ret _json_result
  end.

(** The part the eleven API methods have in common, from the first [try]
    to the [return]: the lemma [run_op_shape] below shows each method is a
    few writes to [STD_PARAMS] followed by exactly this. *)
Definition api_tail (m : http_method) (endpoint prefix : string)
    (k : pyval -> M pyval) : M pyval :=
  let _params := STD_PARAMS in
  req <- try_except
           (req <- session_request m ("https://" +:+ BASE_URL +:+ endpoint)
                     false _params _timeout;;
            raise_for_status req;;
            ret req)
           except_requests;;
  _json_result <- try_except (json req) (except_ValueError req);;
  status <- getitem _json_result "status";;
  if py_ne_str status "SUCCESS"
  then raise (PyAdtSecureHomeError (prefix +:+ py_str _json_result))
  else k _json_result.

(** *** The same methods, flattened

    The definitions below describe the outcome of an API method as one
    case analysis.  They are not read off the source; the lemmas
    [api_tail_outcome] and [run_op_outcome] prove that the methods above
    compute exactly this. *)

(** [requests] raises for this response in [raise_for_status]. *)
Definition is_error_status (r : Response) : bool :=
  (400 <=? status_code r) && (status_code r <? 600).

(** How the two [except] clauses map what the transport raised. *)
Definition translate (err : exn) : exn :=
  if isinstance_ConnectionError err
  then InvalidURL "A Invalid URL or Proxy error occured"
  else if isinstance_HTTPError err then HTTPError else err.

(** The request an API method issues on session [sid] from state [st]. *)
Definition request_of (sid : nat) (m : http_method) (endpoint : string)
    (st : State) : Request :=
  mkRequest sid m ("https://" +:+ BASE_URL +:+ endpoint) false (std_params st)
    (_timeout (self st)).

(** From [req.json()] on, for a response that passed [raise_for_status]. *)
Definition after_response (prefix : string) (k : pyval -> M pyval)
    (r : Response) : M pyval :=
  fun st =>
    match json_body r with
    | inl reason =>
        (inl (PyAdtSecureHomeError
                ("Impossible to decode response: " +:+ reason +:+ LF
                 +:+ "Response was: " +:+ text r)), st, [JsonDecode r])
    | inr (PyDict d) =>
        match d !! "status" with
        | None => (inl (KeyError "status"), st, [JsonDecode r])
        | Some status =>
            if py_ne_str status "SUCCESS"
            then (inl (PyAdtSecureHomeError (prefix +:+ py_str (PyDict d))),
                  st, [JsonDecode r])
            else
              match k (PyDict d) st with
              | (res, st', log) => (res, st', JsonDecode r :: log)
              end
        end
    | inr _ => (inl TypeError, st, [JsonDecode r])
    end.

Definition api_outcome (m : http_method) (endpoint prefix : string)
    (k : pyval -> M pyval) : M pyval :=
  fun st =>
    match _session (self st) with
    | None => (inl AttributeError, st, [])
    | Some sid =>
        let q := request_of sid m endpoint st in
        match net q with
        | Raises err => (inl (translate err), st, [HttpCall q])
        | Respond r =>
            if is_error_status r
            then (inl HTTPError, st, [HttpCall q])
            else
              match after_response prefix k r st with
              | (res, st', log) => (res, st', HttpCall q :: log)
              end
        end
    end.

End PyAdtSecureHome.

(** The contents of [STD_PARAMS] when the request of [op] goes out, from
    its contents [base] when the method was entered. *)
Definition op_params (op : Op) (c : Client) (base : gmap string pyval)
    : gmap string pyval :=
  match op with
  | Login => <["password" := _password c]> (<["email" := _email c]> base)
  | CheckAppVersion =>
      <["clientImei" := default PyNone (base !! "imei")]>
        (<["token" := _token c]> base)
  | SiteNotifications | GetSyncInfo | GetStateInfo
  | GetNotificationSubscriptions | GetUserPreferences
  | GetSecurityCompanies => <["token" := _token c]> base
  | StoreGcmRegistrationid gcm_id =>
      <["gcmId" := gcm_id]> (<["token" := _token c]> base)
  | SetUserPreference site_id partition_id new_code store_for =>
      let name :=
        match site_id, partition_id, store_for with
        | PyStr a, PyStr b, PyStr c =>
            (((("site." +:+ a) +:+ ".partition.") +:+ b) +:+ ".storeFor") +:+ c
        | _, _, _ => ""
        end in
      <["preference_value" := new_code]>
        (<["name" := PyStr name]>
           (<["siteId" := site_id]> (<["token" := _token c]> base)))
  | ArmSite arm pin partition_id site_id =>
      <["siteId" := site_id]>
        (<["partitionId" := partition_id]>
           (<["pin" := pin]>
              (<["arm" := arm]> (<["token" := _token c]> base))))
  | Logout | CloseSession => base
  end.

(** The state in which the request of [op] goes out. *)
Definition op_state (op : Op) (st : State) : State :=
  mkState (op_params op (self st) (std_params st)) (sessions st) (self st).

(** The keys of [STD_PARAMS] that [op] assigns. *)
Definition op_keys (op : Op) : list string :=
  match op with
  | Login => ["email"; "password"]
  | CheckAppVersion => ["token"; "clientImei"]
  | SiteNotifications | GetSyncInfo | GetStateInfo
  | GetNotificationSubscriptions | GetUserPreferences
  | GetSecurityCompanies => ["token"]
  | StoreGcmRegistrationid _ => ["token"; "gcmId"]
  | SetUserPreference _ _ _ _ => ["token"; "siteId"; "name"; "preference_value"]
  | ArmSite _ _ _ _ => ["token"; "arm"; "pin"; "partitionId"; "siteId"]
  | Logout | CloseSession => []
  end.

(** The arguments and [STD_PARAMS] let the API method [op] get as far as
    its request: [check_app_version] finds the imei, and
    [set_user_preference] is given strings and Arm or Bypass. *)
Definition op_ready (op : Op) (st : State) : Prop :=
  match op with
  | CheckAppVersion => is_Some (std_params st !! "imei")
  | SetUserPreference site_id partition_id _ store_for =>
      match site_id, partition_id, store_for with
      | PyStr _, PyStr _, PyStr c => c = "Arm" \/ c = "Bypass"
      | _, _, _ => False
      end
  | Logout | CloseSession => False
  | _ => True
  end.

(** [needle in hay] on strings *)
Definition contains (needle hay : string) : Prop :=
  exists pre post, hay = pre +:+ needle +:+ post.

(** The result, final state and events of a run. *)
Definition result {A} (x : (exn + A) * State * list Event) : exn + A := x.1.1.
Definition final {A} (x : (exn + A) * State * list Event) : State := x.1.2.
Definition events {A} (x : (exn + A) * State * list Event) : list Event := x.2.

(** The sessions after [close_session] has closed the current one. *)
Definition close_old (st : State) : list Session :=
  match _session (self st) with
  | Some sid => alter (fun s => mkSession true (sess_headers s)) sid (sessions st)
  | None => sessions st
  end.

(** An event of the session lifecycle, as opposed to one of a request. *)
Definition session_event (ev : Event) : Prop :=
  match ev with
  | SessionClose _ | SessionOpen _ => True
  | HttpCall _ | JsonDecode _ => False
  end.

(** ** Concrete inputs for the examples *)

Definition example_str (v : pyval) : string :=
  match v with
  | PyStr s => s
  | PyDict _ => "{...}"
  | _ => ""
  end.

Definition example_headers : gmap string string :=
  {["Accept" := "application/json"]}.

Definition example_session_headers : gmap string string :=
  {["Connection" := "keep-alive"]}.

(** A client just constructed, [STD_PARAMS] holding one identifier. *)
Definition example_state : State :=
  final (__init__ example_headers example_session_headers
           (PyStr "user@example.com") (PyStr "hunter2") (PyInt 10) PyNone
           (mkState {["imei" := PyStr "0"]} []
              (mkClient PyNone PyNone None PyNone PyNone))).

Definition example_success : pyval :=
  PyDict (<["status" := PyStr "SUCCESS"]> (<["token" := PyStr "abc123"]> ∅)).

Definition example_failure : pyval :=
  PyDict (<["status" := PyStr "FAILED"]> ∅).

(** A transport that answers every request with the same response. *)
Definition always (r : Response) : Transport := fun _ => Respond r.

(** A transport that fails every request with the same exception. *)
Definition always_raises (err : exn) : Transport := fun _ => Raises err.

(** The double quote, for writing a JSON text. *)
Definition DQ : string := String (Ascii.ascii_of_nat 34) EmptyString.

(** The body with status SUCCESS and token abc123, as text. *)
Definition example_success_text : string :=
  "{" +:+ DQ +:+ "status" +:+ DQ +:+ ":" +:+ DQ +:+ "SUCCESS" +:+ DQ +:+ ","
  +:+ DQ +:+ "token" +:+ DQ +:+ ":" +:+ DQ +:+ "abc123" +:+ DQ +:+ "}".

Definition response_success : Response :=
  mkResponse 200 example_success_text (inr example_success).

Definition response_failure : Response :=
  mkResponse 200 "" (inr example_failure).

(** A redirect, which [allow_redirects=False] hands to the caller as it
    is, here with a well-formed body. *)
Definition response_redirect : Response :=
  mkResponse 302 example_success_text (inr example_success).

Definition response_not_found : Response :=
  mkResponse 404 "Not Found" (inl "Expecting value: line 1 column 1 (char 0)").

Definition response_html : Response :=
  mkResponse 200 "<html></html>"
    (inl "Expecting value: line 1 column 1 (char 0)").

(** A body with status SUCCESS and no token. *)
Definition response_no_token : Response :=
  mkResponse 200 "" (inr (PyDict (<["status" := PyStr "SUCCESS"]> ∅))).

(** A body that is a mapping without a status. *)
Definition response_no_status : Response :=
  mkResponse 200 "" (inr (PyDict (<["token" := PyStr "abc123"]> ∅))).

(** Arming partition 1 of site 7 with the code 1234. *)
Definition ArmSite_example : Op :=
  ArmSite (PyBool true) (PyInt 1234) (PyInt 1) (PyInt 7).

(** A public method run on the example inputs. *)
Definition example_run (net : Transport) (op : Op) (st : State)
    : (exn + pyval) * State * list Event :=
  run_op example_str example_headers example_session_headers net op st.

(** The request [op] issues from the example state. *)
Definition example_request (m : http_method) (endpoint : string) (op : Op)
    : Request :=
  request_of 0 m endpoint (op_state op example_state).

(** The request [get_sync_info] issues on the example client after [op]
    has run on it against a server that answers SUCCESS. *)
Definition request_after (op : Op) : Request :=
  request_of 0 GET API_ENDPOINT_SYNC_INFO
    (op_state GetSyncInfo
       (final (example_run (always response_success) op example_state))).

(** ** Sequences of calls *)

(** A caller invoking public methods one after the other on the same
    client, each against its own network, going on whatever each call
    returned or raised. *)
Fixpoint run_calls (py_str : pyval -> string)
    (REQUEST_HEADER new_session_headers : gmap string string)
    (calls : list (Transport * Op)) (st : State) : State :=
  match calls with
  | [] => st
  | (net, op) :: rest =>
      run_calls py_str REQUEST_HEADER new_session_headers rest
        (final (run_op py_str REQUEST_HEADER new_session_headers net op st))
  end.

(** [self._session] is a session that exists and was not closed. *)
Definition has_open_session (st : State) : Prop :=
  exists sid s,
    _session (self st) = Some sid
    /\ sessions st !! sid = Some s
    /\ sess_closed s = false.

(** No session but the one [self._session] refers to is still open. *)
Definition one_open_session (st : State) : Prop :=
  forall i s,
    sessions st !! i = Some s -> sess_closed s = false ->
    _session (self st) = Some i.

Definition is_http_call (ev : Event) : bool :=
  match ev with HttpCall _ => true | _ => false end.

Definition is_json_decode (ev : Event) : bool :=
  match ev with JsonDecode _ => true | _ => false end.

(** Every key some method assigns in [STD_PARAMS]. *)
Definition assigned_keys : list string :=
  ["email"; "password"; "token"; "clientImei"; "gcmId"; "siteId"; "name";
   "preference_value"; "arm"; "pin"; "partitionId"].

(** A server error whose body is nevertheless a well-formed refusal. *)
Definition response_server_error : Response :=
  mkResponse 500 "" (inr example_failure).


(** The example client with an empty [STD_PARAMS]. *)
Definition example_state_no_imei : State :=
  mkState ∅ (sessions example_state) (self example_state).

(** The state before the example client is constructed: no session yet. *)
Definition example_blank : State :=
  mkState {["imei" := PyStr "0"]} []
    (mkClient PyNone PyNone None PyNone PyNone).

(** The example client after a successful [login]. *)
Definition example_state_logged_in : State :=
  final (login example_str (always response_success) example_state).

(** The request [get_sync_info] issues after [logout] on the logged-in
    example client, on the session [logout] opened. *)
Definition request_after_logout : Request :=
  request_of 1 GET API_ENDPOINT_SYNC_INFO
    (op_state GetSyncInfo
       (final (logout example_headers example_session_headers
                 example_state_logged_in))).

(** The request [arm_site] issues when it is called a second time with
    the same arguments, after the server refused the first call. *)
Definition request_again_arm : Request :=
  request_of 0 GET API_ENDPOINT_ARM_SITE
    (op_state ArmSite_example
       (final (run_op example_str example_headers example_session_headers
                 (always response_failure) ArmSite_example example_state))).

(** Calls to run in sequence on the example client. *)
Definition example_calls : list (Transport * Op) :=
  [(always response_success, Login);
   (always_raises requests_ReadTimeout, GetStateInfo);
   (always response_success, Logout);
   (always response_failure, ArmSite_example);
   (always response_success, CloseSession)].

(** * Properties *)

Section Properties.

Context (py_str : pyval -> string).
Context (REQUEST_HEADER new_session_headers : gmap string string).

Local Abbreviation run := (run_op py_str REQUEST_HEADER new_session_headers).

(** ** Stepping through the straight-line part of a method *)

Lemma bind_step {A B} (c : M A) (k : A -> M B) st a st1 :
  c st = (inr a, st1, []) -> bind c k st = k a st1.
Proof.
  intros H. unfold bind. rewrite H.
  destruct (k a st1) as [[res st2] log2]. reflexivity.
Qed.

Lemma bind_fail {A B} (c : M A) (k : A -> M B) st err st1 log :
  c st = (inl err, st1, log) -> bind c k st = (inl err, st1, log).
Proof. intros H. unfold bind. rewrite H. reflexivity. Qed.

Lemma bind_ret {A B} (a : A) (k : A -> M B) st : bind (ret a) k st = k a st.
Proof. apply bind_step. reflexivity. Qed.

Lemma bind_getattr {A B} (f : Client -> A) (k : A -> M B) st :
  bind (getattr f) k st = k (f (self st)) st.
Proof. apply bind_step. reflexivity. Qed.

Lemma bind_setattr {B} upd (k : unit -> M B) st :
  bind (setattr upd) k st
  = k tt (mkState (std_params st) (sessions st) (upd (self st))).
Proof. apply bind_step. reflexivity. Qed.

Lemma bind_dict_setitem {B} key v (k : unit -> M B) st :
  bind (dict_setitem STD_PARAMS key v) k st
  = k tt (mkState (<[key := v]> (std_params st)) (sessions st) (self st)).
Proof. apply bind_step. reflexivity. Qed.

(** ** The shape of an API method *)

Lemma api_tail_outcome net m e p k st :
  api_tail py_str net m e p k st = api_outcome py_str net m e p k st.
Proof.
  unfold api_tail, api_outcome, bind, try_except, session_request. simpl.
  destruct (_session (self st)) as [sid|]; [|reflexivity].
  fold (request_of sid m e st).
  destruct (net (request_of sid m e st)) as [r|err]; simpl.
  - unfold raise_for_status. fold (is_error_status r).
    destruct (is_error_status r); simpl; [reflexivity|].
    unfold after_response, json, bind, emit. simpl.
    destruct (json_body r) as [reason|v]; simpl; [reflexivity|].
    destruct v; simpl; try reflexivity.
    destruct (d !! "status") as [status|]; simpl; [|reflexivity].
    destruct (py_ne_str status "SUCCESS"); simpl; [reflexivity|].
    destruct (k (PyDict d) st) as [[res st'] log]. reflexivity.
  - unfold except_requests, translate.
    destruct (isinstance_ConnectionError err); [reflexivity|].
    destruct (isinstance_HTTPError err); reflexivity.
Qed.

Lemma close_session_run st :
  close_session REQUEST_HEADER new_session_headers st
  = (inr PyNone,
     mkState (std_params st)
       (close_old st
        ++ [mkSession false (REQUEST_HEADER ∪ new_session_headers)])
       (set_session (Some (length (sessions st))) (self st)),
     match _session (self st) with
     | Some sid => [SessionClose sid]
     | None => []
     end ++ [SessionOpen (length (sessions st))]).
Proof.
  assert (Hlen : length (close_old st) = length (sessions st)).
  { unfold close_old. destruct (_session (self st)); [|reflexivity].
    apply length_alter. }
  assert (Halt : forall f : Session -> Session,
             alter f (length (sessions st))
               (close_old st ++ [mkSession false new_session_headers])
             = close_old st ++ [f (mkSession false new_session_headers)]).
  { intros f. rewrite <- Hlen.
    replace (length (close_old st)) with (length (close_old st) + 0)%nat
      by lia.
    rewrite alter_app_r. reflexivity. }
  unfold close_session. rewrite bind_getattr.
  unfold close_old in *.
  destruct (_session (self st)) as [sid|]; unfold bind; simpl;
    rewrite ?length_alter, Halt; reflexivity.
Qed.

Lemma logout_run st :
  logout REQUEST_HEADER new_session_headers st
  = close_session REQUEST_HEADER new_session_headers st.
Proof.
  unfold logout, bind. rewrite close_session_run. simpl.
  rewrite app_nil_r. reflexivity.
Qed.

(** A public method is one of three things: a session method; an API
    method that raised before issuing its request, having emitted nothing
    and touched neither [self] nor the sessions; or an API method that made
    its writes to [STD_PARAMS] and went on with the common tail. *)
Lemma run_op_cases net op st :
  (op_call op = None
   /\ run net op st = close_session REQUEST_HEADER new_session_headers st)
  \/ (is_Some (op_call op)
      /\ ~ op_ready op st
      /\ exists err st1,
           run net op st = (inl err, st1, [])
           /\ self st1 = self st /\ sessions st1 = sessions st)
  \/ (exists m e,
        op_call op = Some (m, e)
        /\ run net op st
           = api_outcome py_str net m e (error_prefix op) (on_success op)
               (op_state op st)).
Proof.
  destruct op; simpl;
    try (right; right; eexists _, _; split; [reflexivity|];
         rewrite <- api_tail_outcome;
         unfold login, site_notifications, get_sync_info, get_state_info,
           get_notification_subscriptions, get_user_preferences,
           get_security_companies, store_gcm_registrationid, arm_site;
         repeat first [rewrite bind_getattr | rewrite bind_dict_setitem];
         reflexivity).
  - (* check_app_version *)
    unfold check_app_version.
    rewrite bind_getattr, bind_dict_setitem.
    destruct (std_params st !! "imei") as [imei|] eqn:Hi.
    + right; right. eexists _, _. split; [reflexivity|].
      rewrite <- api_tail_outcome. erewrite bind_step.
      2:{ unfold dict_getitem. simpl. rewrite lookup_insert_ne by done.
          rewrite Hi. reflexivity. }
      rewrite bind_dict_setitem. unfold op_state. simpl. rewrite Hi.
      reflexivity.
    + right; left. split; [eexists; reflexivity|].
      split; [intros [v Hv]; discriminate Hv|].
      eexists _, _. split.
      * erewrite bind_fail; [reflexivity|].
        unfold dict_getitem. simpl. rewrite lookup_insert_ne by done.
        rewrite Hi. reflexivity.
      * split; reflexivity.
  - (* set_user_preference *)
    unfold set_user_preference.
    destruct (py_not_in store_for ["Arm"; "Bypass"]) eqn:Hv.
    { right; left. split; [eexists; reflexivity|]. split.
      - intros H. destruct site_id, partition_id, store_for; try exact H.
        destruct H as [-> | ->]; discriminate Hv.
      - eexists _, _. split; [reflexivity|]. split; reflexivity. }
    rewrite bind_getattr, !bind_dict_setitem.
    destruct site_id;
      try (right; left; split; [eexists; reflexivity|];
           split; [intros H; exact H|];
           eexists _, _; split; [reflexivity|]; split; reflexivity).
    destruct partition_id;
      try (right; left; split; [eexists; reflexivity|];
           split; [intros H; exact H|];
           eexists _, _; split; [reflexivity|]; split; reflexivity).
    destruct store_for; try discriminate Hv.
    right; right. eexists _, _. split; [reflexivity|].
    rewrite <- api_tail_outcome. simpl.
    rewrite !bind_ret, !bind_dict_setitem. reflexivity.
  - (* logout *)
    left. split; [reflexivity|]. apply logout_run.
  - (* close_session *)
    left. split; reflexivity.
Qed.

(** Either the method emits session events only, or it is its writes to
    [STD_PARAMS] followed by the common tail. *)
Lemma run_op_outcome net op st :
  (forall ev, ev ∈ events (run net op st) -> session_event ev)
  \/ exists m e,
       op_call op = Some (m, e)
       /\ run net op st
          = api_outcome py_str net m e (error_prefix op) (on_success op)
              (op_state op st).
Proof.
  destruct (run_op_cases net op st)
    as [[_ Hrun] | [(_ & _ & err & st1 & Hrun & _) | H]]; [| |right; exact H].
  - left. rewrite Hrun, close_session_run.
    intros ev Hev. unfold events in Hev. simpl in Hev.
    apply elem_of_app in Hev as [Hev|Hev].
    + destruct (_session (self st)); [|inversion Hev].
      apply list_elem_of_singleton in Hev. subst. exact I.
    + apply list_elem_of_singleton in Hev. subst. exact I.
  - left. rewrite Hrun. intros ev Hev. inversion Hev.
Qed.

Lemma on_success_run op v st :
  on_success op v st
  = match op with
    | Login =>
        match v with
        | PyDict d =>
            match d !! "token" with
            | Some tok =>
                (inr v,
                 mkState (std_params st) (sessions st)
                   (set_token tok (self st)), [])
            | None => (inl (KeyError "token"), st, [])
            end
        | _ => (inl TypeError, st, [])
        end
    | _ => (inr v, st, [])
    end.
Proof.
  destruct op; try reflexivity. simpl.
  destruct v; try reflexivity. simpl.
  destruct (d !! "token"); reflexivity.
Qed.

Lemma on_success_events op v st : events (on_success op v st) = [].
Proof.
  rewrite on_success_run. destruct op; try reflexivity.
  destruct v; try reflexivity. destruct (d !! "token"); reflexivity.
Qed.

Lemma after_response_events p op r st :
  events (after_response py_str p (on_success op) r st) = [JsonDecode r].
Proof.
  unfold after_response.
  destruct (json_body r) as [reason|v]; [reflexivity|].
  destruct v; try reflexivity.
  destruct (d !! "status") as [status|]; [|reflexivity].
  destruct (py_ne_str status "SUCCESS"); [reflexivity|].
  pose proof (on_success_events op (PyDict d) st) as Hk.
  destruct (on_success op (PyDict d) st) as [[res st'] log].
  unfold events in *. simpl in *. rewrite Hk. reflexivity.
Qed.

(** A method that issued a request is past its writes to [STD_PARAMS],
    and its outcome is decided by what the transport did with it. *)
Lemma http_call_outcome net op st q :
  HttpCall q ∈ events (run net op st) ->
  exists m e sid,
    op_call op = Some (m, e)
    /\ _session (self st) = Some sid
    /\ q = request_of sid m e (op_state op st)
    /\ run net op st
       = match net q with
         | Raises err => (inl (translate err), op_state op st, [HttpCall q])
         | Respond r =>
             if is_error_status r
             then (inl HTTPError, op_state op st, [HttpCall q])
             else
               match after_response py_str (error_prefix op) (on_success op)
                       r (op_state op st) with
               | (res, st', log) => (res, st', HttpCall q :: log)
               end
         end.
Proof.
  intros Hq.
  destruct (run_op_outcome net op st) as [Hno | (m & e & Hc & Hrun)].
  { destruct (Hno _ Hq). }
  exists m, e. rewrite Hrun in Hq |- *. unfold api_outcome in *.
  change (self (op_state op st)) with (self st) in *.
  destruct (_session (self st)) as [sid|]; [|inversion Hq].
  exists sid. split; [exact Hc|]. split; [reflexivity|].
  set (q0 := request_of sid m e (op_state op st)) in *.
  assert (q = q0) as ->; [|split; reflexivity].
  destruct (net q0) as [r|err].
  - destruct (is_error_status r).
    + apply list_elem_of_singleton in Hq. congruence.
    + pose proof (after_response_events (error_prefix op) op r (op_state op st))
        as Hev.
      destruct (after_response py_str (error_prefix op) (on_success op) r
                  (op_state op st)) as [[res st'] log].
      unfold events in *. simpl in *. subst log.
      apply elem_of_cons in Hq as [Hq|Hq]; [congruence|].
      apply list_elem_of_singleton in Hq. discriminate Hq.
  - apply list_elem_of_singleton in Hq. congruence.
Qed.



(** ** What a method leaves behind *)

(** The common tail writes nothing to [STD_PARAMS] and to the sessions,
    and of [self] only [login] changes anything, the token. *)
Lemma api_outcome_final net m e p op st :
  std_params (final (api_outcome py_str net m e p (on_success op) st))
  = std_params st
  /\ sessions (final (api_outcome py_str net m e p (on_success op) st))
     = sessions st
  /\ (self (final (api_outcome py_str net m e p (on_success op) st)) = self st
      \/ op = Login
         /\ exists tok,
              self (final (api_outcome py_str net m e p (on_success op) st))
              = set_token tok (self st)).
Proof.
  unfold api_outcome.
  destruct (_session (self st)) as [sid|]; [|repeat split; left; reflexivity].
  destruct (net _) as [r|err]; [|repeat split; left; reflexivity].
  destruct (is_error_status r); [repeat split; left; reflexivity|].
  unfold after_response.
  destruct (json_body r) as [reason|v]; [repeat split; left; reflexivity|].
  destruct v; try (repeat split; left; reflexivity).
  destruct (d !! "status") as [status|]; [|repeat split; left; reflexivity].
  destruct (py_ne_str status "SUCCESS"); [repeat split; left; reflexivity|].
  rewrite on_success_run.
  destruct op; try (repeat split; left; reflexivity).
  destruct (d !! "token") as [tok|]; [|repeat split; left; reflexivity].
  split; [reflexivity|]. split; [reflexivity|].
  right. split; [reflexivity|]. exists tok. reflexivity.
Qed.

(** An API method never touches the sessions, and only [login] can change
    an attribute of [self], the token. *)
Lemma api_op_frame net op st :
  is_Some (op_call op) ->
  sessions (final (run net op st)) = sessions st
  /\ (self (final (run net op st)) = self st
      \/ op = Login
         /\ exists tok, self (final (run net op st)) = set_token tok (self st)).
Proof.
  intros Hc.
  destruct (run_op_cases net op st)
    as [[Hn _] | [(_ & _ & err & st1 & Hrun & Hself & Hsess)
                 | (m & e & _ & Hrun)]].
  - rewrite Hn in Hc. destruct Hc as [x Hx]. discriminate Hx.
  - rewrite Hrun. split; [exact Hsess|]. left. exact Hself.
  - rewrite Hrun.
    destruct (api_outcome_final net m e (error_prefix op) op (op_state op st))
      as (_ & Hsess & Hself).
    split; [exact Hsess|]. exact Hself.
Qed.

(** No public method leaves the client without a session. *)
Lemma session_survives net op st :
  is_Some (_session (self st)) ->
  is_Some (_session (self (final (run net op st)))).
Proof.
  intros Hs.
  destruct (run_op_cases net op st)
    as [[_ Hrun] | [(Hc & _) | (m & e & Hc & _)]].
  - rewrite Hrun, close_session_run. eexists. reflexivity.
  - destruct (api_op_frame net op st Hc) as (_ & [-> | (_ & tok & ->)]);
      exact Hs.
  - assert (Hc' : is_Some (op_call op)) by (rewrite Hc; eexists; reflexivity).
    destruct (api_op_frame net op st Hc') as (_ & [-> | (_ & tok & ->)]);
      exact Hs.
Qed.

(** The constructor: the attributes are the arguments, and the session is
    a new one; nothing goes over the network. *)
Lemma init_run email password timeout token st :
  __init__ REQUEST_HEADER new_session_headers email password timeout token st
  = (inr PyNone,
     mkState (std_params st)
       (sessions st
        ++ [mkSession false (REQUEST_HEADER ∪ new_session_headers)])
       (mkClient email password (Some (length (sessions st))) token timeout),
     [SessionOpen (length (sessions st))]).
Proof.
  unfold __init__. rewrite !bind_setattr.
  unfold bind at 1. rewrite close_session_run, !bind_setattr.
  unfold ret, close_old. simpl. reflexivity.
Qed.

(** An API method whose arguments let it get to its request does issue
    it, on the client's session, with the verb, endpoint and parameters
    listed for it. *)
Lemma ready_op_issues_request net op st sid m e :
  op_call op = Some (m, e) ->
  op_ready op st ->
  _session (self st) = Some sid ->
  exists rest,
    events (run net op st)
    = HttpCall (request_of sid m e (op_state op st)) :: rest.
Proof.
  intros Hc Hr Hs.
  destruct (run_op_cases net op st)
    as [[Hn _] | [(_ & Hnr & _) | (m' & e' & Hc' & Hrun)]].
  - rewrite Hn in Hc. discriminate Hc.
  - destruct (Hnr Hr).
  - rewrite Hc in Hc'. injection Hc' as <- <-.
    rewrite Hrun. unfold api_outcome.
    change (self (op_state op st)) with (self st). rewrite Hs.
    destruct (net _) as [r|err]; [|eexists; reflexivity].
    destruct (is_error_status r); [eexists; reflexivity|].
    destruct (after_response _ _ _ _ _) as [[res st'] log].
    eexists. reflexivity.
Qed.

(** The whole outcome of such a method, from what the network does with
    that request. *)
Lemma ready_op_outcome net op st sid m e :
  op_call op = Some (m, e) ->
  op_ready op st ->
  _session (self st) = Some sid ->
  run net op st
  = match net (request_of sid m e (op_state op st)) with
    | Raises err =>
        (inl (translate err), op_state op st,
         [HttpCall (request_of sid m e (op_state op st))])
    | Respond r =>
        if is_error_status r
        then (inl HTTPError, op_state op st,
              [HttpCall (request_of sid m e (op_state op st))])
        else
          match after_response py_str (error_prefix op) (on_success op) r
                  (op_state op st) with
          | (res, st', log) =>
              (res, st',
               HttpCall (request_of sid m e (op_state op st)) :: log)
          end
    end.
Proof.
  intros Hc Hr Hs.
  destruct (run_op_cases net op st)
    as [[Hn _] | [(_ & Hnr & _) | (m' & e' & Hc' & Hrun)]].
  - rewrite Hn in Hc. discriminate Hc.
  - destruct (Hnr Hr).
  - rewrite Hc in Hc'. injection Hc' as <- <-.
    rewrite Hrun. unfold api_outcome.
    change (self (op_state op st)) with (self st). rewrite Hs. reflexivity.
Qed.

Lemma error_status_true r :
  400 <= status_code r < 600 -> is_error_status r = true.
Proof.
  intros [Hlo Hhi]. unfold is_error_status. apply andb_true_intro. split.
  - apply Z.leb_le. exact Hlo.
  - apply Z.ltb_lt. exact Hhi.
Qed.

Lemma error_status_false r :
  ~ (400 <= status_code r < 600) -> is_error_status r = false.
Proof.
  intros H. unfold is_error_status.
  destruct (400 <=? status_code r) eqn:H1; [|reflexivity].
  destruct (status_code r <? 600) eqn:H2; [|reflexivity].
  exfalso. apply H. split.
  - apply Z.leb_le. exact H1.
  - apply Z.ltb_lt. exact H2.
Qed.

(** ** Substrings *)

Lemma string_app_nil_r (s : string) : s +:+ "" = s.
Proof.
  induction s as [|a s IH]; [reflexivity|].
  change (String a (s +:+ "") = String a s). f_equal. exact IH.
Qed.

Lemma string_app_assoc (s t u : string) : (s +:+ t) +:+ u = s +:+ t +:+ u.
Proof.
  induction s as [|a s IH]; [reflexivity|].
  change (String a ((s +:+ t) +:+ u) = String a (s +:+ t +:+ u)).
  f_equal. exact IH.
Qed.

Lemma contains_refl (s : string) : contains s s.
Proof. exists "", "". symmetry. apply string_app_nil_r. Qed.

Lemma contains_app_l (s t u : string) : contains s t -> contains s (t +:+ u).
Proof.
  intros (pre & post & ->). exists pre, (post +:+ u).
  rewrite !string_app_assoc. reflexivity.
Qed.

Lemma contains_app_r (s t u : string) : contains s u -> contains s (t +:+ u).
Proof.
  intros (pre & post & ->). exists (t +:+ pre), post.
  rewrite !string_app_assoc. reflexivity.
Qed.

(** ** Transport failures *)

(** C8: whenever a public method gets to issue its request and the
    transport fails on it with [requests.ConnectionError] or one of its
    subclasses (unreachable host, proxy failure), the method, having issued
    that one request, raises [InvalidURL]; it raises neither the generic
    [PyAdtSecureHomeError] nor the transport's own exception. *)
Theorem connection_failure_raises_InvalidURL net op st m e sid err :
  op_call op = Some (m, e) ->
  op_ready op st ->
  _session (self st) = Some sid ->
  net (request_of sid m e (op_state op st)) = Raises err ->
  isinstance_ConnectionError err = true ->
  events (run net op st) = [HttpCall (request_of sid m e (op_state op st))]
  /\ result (run net op st)
     = inl (InvalidURL "A Invalid URL or Proxy error occured")
  /\ (forall msg, result (run net op st) <> inl (PyAdtSecureHomeError msg))
  /\ result (run net op st) <> inl err.
Proof.
  intros Hc Hr Hs Hnet Herr.
  rewrite (ready_op_outcome net op st sid m e Hc Hr Hs), Hnet.
  unfold result, events, translate. simpl. rewrite Herr.
  split; [reflexivity|]. split; [reflexivity|]. split.
  - intros msg H. discriminate H.
  - intros H. injection H as <-. discriminate Herr.
Qed.

(** ** HTTP status *)

(** C2, as the code has it: when a public method gets to issue its
    request and the response has a status in 400..599, the method raises
    [HTTPError] having issued that one request and decoded nothing.  With
    any other status the response is decoded, and the method ends as it
    does on a 2xx response with the same text and the same body. *)
Theorem error_status_raises_HTTPError net op st m e sid r :
  op_call op = Some (m, e) ->
  op_ready op st ->
  _session (self st) = Some sid ->
  net (request_of sid m e (op_state op st)) = Respond r ->
  (400 <= status_code r < 600 ->
   result (run net op st) = inl HTTPError
   /\ events (run net op st)
      = [HttpCall (request_of sid m e (op_state op st))]
   /\ forall r', JsonDecode r' ∉ events (run net op st))
  /\ (~ (400 <= status_code r < 600) ->
      events (run net op st)
      = [HttpCall (request_of sid m e (op_state op st)); JsonDecode r]
      /\ forall net' r',
           net' (request_of sid m e (op_state op st)) = Respond r' ->
           200 <= status_code r' < 300 ->
           text r' = text r ->
           json_body r' = json_body r ->
           result (run net' op st) = result (run net op st)
           /\ final (run net' op st) = final (run net op st)).
Proof.
  intros Hc Hr Hs Hnet.
  rewrite (ready_op_outcome net op st sid m e Hc Hr Hs), Hnet. split.
  - intros Hst. rewrite (error_status_true r Hst).
    split; [reflexivity|]. split; [reflexivity|].
    intros r' Hin. apply list_elem_of_singleton in Hin. discriminate Hin.
  - intros Hst. rewrite (error_status_false r Hst). split.
    + pose proof (after_response_events (error_prefix op) op r
                    (op_state op st)) as Hev.
      destruct (after_response py_str (error_prefix op) (on_success op) r
                  (op_state op st)) as [[res st'] log].
      unfold events in *. simpl in *. rewrite Hev. reflexivity.
    + intros net' r' Hnet' Hst' Ht Hj.
      rewrite (ready_op_outcome net' op st sid m e Hc Hr Hs), Hnet'.
      assert (Hok : is_error_status r' = false).
      { apply error_status_false. lia. }
      rewrite Hok. unfold after_response. rewrite Hj, Ht.
      destruct (json_body r) as [reason|v]; [split; reflexivity|].
      destruct v; try (split; reflexivity).
      destruct (d !! "status") as [status|]; [|split; reflexivity].
      destruct (py_ne_str status "SUCCESS"); [split; reflexivity|].
      destruct (on_success op (PyDict d) (op_state op st))
        as [[res st'] log].
      split; reflexivity.
Qed.

(** ** Undecodable bodies *)

(** C7: when a public method gets to issue its request, the response
    has a 2xx status and [json()] fails on it, the method raises
    [PyAdtSecureHomeError] with a message that contains both the raw body
    text and the reason of the decode failure. *)
Theorem undecodable_body_raises_client_error net op st m e sid r reason :
  op_call op = Some (m, e) ->
  op_ready op st ->
  _session (self st) = Some sid ->
  net (request_of sid m e (op_state op st)) = Respond r ->
  200 <= status_code r < 300 ->
  json_body r = inl reason ->
  exists msg,
    result (run net op st) = inl (PyAdtSecureHomeError msg)
    /\ msg = "Impossible to decode response: " +:+ reason +:+ LF
             +:+ "Response was: " +:+ text r
    /\ contains (text r) msg
    /\ contains reason msg.
Proof.
  intros Hc Hr Hs Hnet Hst Hj.
  rewrite (ready_op_outcome net op st sid m e Hc Hr Hs), Hnet.
  assert (Hok : is_error_status r = false).
  { apply error_status_false. lia. }
  rewrite Hok. unfold after_response. rewrite Hj.
  eexists. split; [reflexivity|]. split; [reflexivity|]. split.
  - do 4 apply contains_app_r. apply contains_refl.
  - apply contains_app_r, contains_app_l, contains_refl.
Qed.

(** ** The vendor status *)

Lemma py_ne_str_true v s : py_ne_str v s = true <-> v <> PyStr s.
Proof.
  destruct v; simpl; try (split; [intros _ H; discriminate H | reflexivity]).
  rewrite negb_true_iff, String.eqb_neq. split.
  - intros H1 H2. injection H2 as ->. apply H1. reflexivity.
  - intros H1 H2. apply H1. f_equal. exact H2.
Qed.

Lemma py_ne_str_false v s : py_ne_str v s = false <-> v = PyStr s.
Proof.
  destruct v; simpl; try (split; intros H; discriminate H).
  rewrite negb_false_iff, String.eqb_eq. split.
  - intros ->. reflexivity.
  - intros H. injection H as ->. reflexivity.
Qed.

(** The prefix tells the API methods apart. *)
Lemma error_prefix_specific op1 op2 :
  error_prefix op1 = error_prefix op2 -> op_call op1 = op_call op2.
Proof.
  destruct op1, op2; simpl; intros H; first [reflexivity | discriminate H].
Qed.

(** C3, as the code has it: when a public method gets to issue its
    request, the response has a status outside 400..599 and its body parses
    as JSON to a mapping with a [status] field, then (a) if the field is
    not the string SUCCESS the method raises [PyAdtSecureHomeError] with
    the message made of its own prefix, which no other method uses,
    followed by the whole payload, and returns nothing; (b) if the field is
    SUCCESS, every method but [login] returns the payload unchanged, and
    [login] returns it unchanged if it has a [token] field and raises
    [KeyError] if it has none. *)
Theorem status_field_decides net op st m e sid r d status :
  op_call op = Some (m, e) ->
  op_ready op st ->
  _session (self st) = Some sid ->
  net (request_of sid m e (op_state op st)) = Respond r ->
  ~ (400 <= status_code r < 600) ->
  json_body r = inr (PyDict d) ->
  d !! "status" = Some status ->
  (status <> PyStr "SUCCESS" ->
   exists msg,
     result (run net op st) = inl (PyAdtSecureHomeError msg)
     /\ msg = error_prefix op +:+ py_str (PyDict d)
     /\ contains (py_str (PyDict d)) msg
     /\ (forall op', error_prefix op' = error_prefix op ->
                     op_call op' = op_call op)
     /\ forall v, result (run net op st) <> inr v)
  /\ (status = PyStr "SUCCESS" ->
      (op <> Login -> result (run net op st) = inr (PyDict d))
      /\ (op = Login -> is_Some (d !! "token") ->
          result (run net op st) = inr (PyDict d))
      /\ (op = Login -> d !! "token" = None ->
          result (run net op st) = inl (KeyError "token"))).
Proof.
  intros Hc Hr Hs Hnet Hhttp Hj Hst.
  rewrite (ready_op_outcome net op st sid m e Hc Hr Hs), Hnet.
  rewrite (error_status_false r Hhttp).
  unfold after_response. rewrite Hj, Hst. split.
  - intros Hne. apply py_ne_str_true in Hne. rewrite Hne.
    eexists. split; [reflexivity|]. split; [reflexivity|]. split.
    + apply contains_app_r, contains_refl.
    + split.
      * intros op' H. apply error_prefix_specific. exact H.
      * intros v H. discriminate H.
  - intros Heq. apply py_ne_str_false in Heq. rewrite Heq.
    rewrite on_success_run. split; [|split].
    + intros Hne. destruct op; try reflexivity. destruct (Hne eq_refl).
    + intros -> [tok Ht]. rewrite Ht. reflexivity.
    + intros -> Ht. rewrite Ht. reflexivity.
Qed.

(** ** Missing keys *)

(** C10: when a public method gets to issue its request, the response
    has a status outside 400..599 and its body parses as JSON to a mapping
    that has no [status] key, the method raises [KeyError]; and [login],
    on a mapping whose status is SUCCESS but which has no [token] key,
    raises [KeyError] too, leaving the stored token as it was. *)
Theorem missing_key_raises_KeyError net op st m e sid r d :
  op_call op = Some (m, e) ->
  op_ready op st ->
  _session (self st) = Some sid ->
  net (request_of sid m e (op_state op st)) = Respond r ->
  ~ (400 <= status_code r < 600) ->
  json_body r = inr (PyDict d) ->
  (d !! "status" = None ->
   result (run net op st) = inl (KeyError "status"))
  /\ (op = Login ->
      d !! "status" = Some (PyStr "SUCCESS") ->
      d !! "token" = None ->
      result (run net op st) = inl (KeyError "token")
      /\ _token (self (final (run net op st))) = _token (self st)).
Proof.
  intros Hc Hr Hs Hnet Hhttp Hj.
  rewrite (ready_op_outcome net op st sid m e Hc Hr Hs), Hnet.
  rewrite (error_status_false r Hhttp).
  unfold after_response. rewrite Hj. split.
  - intros Hst. rewrite Hst. reflexivity.
  - intros -> Hst Htok. rewrite Hst.
    change (py_ne_str (PyStr "SUCCESS") "SUCCESS") with false. cbv iota.
    rewrite on_success_run, Htok. split; reflexivity.
Qed.

(** ** Login *)

Lemma login_outcome net st :
  login py_str net st
  = api_outcome py_str net GET API_ENDPOINT_LOGIN "Login error: "
      (on_success Login) (op_state Login st).
Proof.
  rewrite <- api_tail_outcome. unfold login.
  repeat first [rewrite bind_getattr | rewrite bind_dict_setitem].
  reflexivity.
Qed.

(** Whatever happens to the request, [login] leaves [STD_PARAMS] with the
    credentials written into it, and touches no attribute but the token. *)
Lemma login_final net st :
  std_params (final (login py_str net st))
  = <["password" := _password (self st)]>
      (<["email" := _email (self st)]> (std_params st))
  /\ sessions (final (login py_str net st)) = sessions st
  /\ exists tok, self (final (login py_str net st)) = set_token tok (self st).
Proof.
  assert (Hid : self st = set_token (_token (self st)) (self st)).
  { destruct (self st). reflexivity. }
  rewrite login_outcome. unfold api_outcome.
  change (self (op_state Login st)) with (self st).
  destruct (_session (self st)) as [sid|];
    [|split; [reflexivity|]; split; [reflexivity|]; eexists; exact Hid].
  destruct (net _) as [r|err];
    [|split; [reflexivity|]; split; [reflexivity|]; eexists; exact Hid].
  destruct (is_error_status r);
    [split; [reflexivity|]; split; [reflexivity|]; eexists; exact Hid|].
  unfold after_response.
  destruct (json_body r) as [reason|v];
    [split; [reflexivity|]; split; [reflexivity|]; eexists; exact Hid|].
  destruct v;
    try (split; [reflexivity|]; split; [reflexivity|]; eexists; exact Hid).
  destruct (d !! "status") as [status|];
    [|split; [reflexivity|]; split; [reflexivity|]; eexists; exact Hid].
  destruct (py_ne_str status "SUCCESS");
    [split; [reflexivity|]; split; [reflexivity|]; eexists; exact Hid|].
  rewrite on_success_run.
  destruct (d !! "token") as [tok|];
    [|split; [reflexivity|]; split; [reflexivity|]; eexists; exact Hid].
  split; [reflexivity|]. split; [reflexivity|]. exists tok. reflexivity.
Qed.

(** C4 does not hold of the code: storing the token is not the only
    state change of [login], which always leaves the client's email and
    password written into the shared [STD_PARAMS].  The rest of the claim
    holds: on a response with a status outside 400..599 whose body is a
    mapping with status SUCCESS and a [token] field (such as the body with
    token abc123), [login] returns the whole body and stores the token,
    changing no other attribute of the client and no session; and whenever
    [login] raises, the attributes, the stored token among them, are what
    they were. *)
Theorem login_stores_token net st :
  std_params (final (login py_str net st))
  = <["password" := _password (self st)]>
      (<["email" := _email (self st)]> (std_params st))
  /\ (forall sid r d tok,
        _session (self st) = Some sid ->
        net (request_of sid GET API_ENDPOINT_LOGIN (op_state Login st))
        = Respond r ->
        ~ (400 <= status_code r < 600) ->
        json_body r = inr (PyDict d) ->
        d !! "status" = Some (PyStr "SUCCESS") ->
        d !! "token" = Some tok ->
        result (login py_str net st) = inr (PyDict d)
        /\ _token (self (final (login py_str net st))) = tok
        /\ self (final (login py_str net st)) = set_token tok (self st)
        /\ sessions (final (login py_str net st)) = sessions st)
  /\ (forall err,
        result (login py_str net st) = inl err ->
        self (final (login py_str net st)) = self st
        /\ sessions (final (login py_str net st)) = sessions st).
Proof.
  split; [exact (proj1 (login_final net st))|]. split.
  - intros sid r d tok Hs Hnet Hhttp Hj Hst Htok.
    rewrite login_outcome. unfold api_outcome.
    change (self (op_state Login st)) with (self st).
    rewrite Hs, Hnet, (error_status_false r Hhttp).
    unfold after_response. rewrite Hj, Hst.
    change (py_ne_str (PyStr "SUCCESS") "SUCCESS") with false. cbv iota.
    rewrite on_success_run, Htok. repeat split; reflexivity.
  - intros err. rewrite login_outcome. unfold api_outcome.
    change (self (op_state Login st)) with (self st).
    destruct (_session (self st)) as [sid|]; [|split; reflexivity].
    destruct (net _) as [r|e]; [|split; reflexivity].
    destruct (is_error_status r); [split; reflexivity|].
    unfold after_response.
    destruct (json_body r) as [reason|v]; [split; reflexivity|].
    destruct v; try (split; reflexivity).
    destruct (d !! "status") as [status|]; [|split; reflexivity].
    destruct (py_ne_str status "SUCCESS"); [split; reflexivity|].
    rewrite on_success_run.
    destruct (d !! "token") as [tok|]; [|split; reflexivity].
    intros H. discriminate H.
Qed.

(** ** set_user_preference *)

(** C5: with a [store_for] other than the strings Arm and Bypass,
    [set_user_preference] raises [PyAdtSecureHomeError] at once: the state,
    [STD_PARAMS] included, is untouched and no request is issued. *)
Theorem invalid_store_for_fails_before_request
    net site_id partition_id new_code store_for st :
  store_for <> PyStr "Arm" ->
  store_for <> PyStr "Bypass" ->
  set_user_preference py_str net site_id partition_id new_code store_for st
  = (inl (PyAdtSecureHomeError
            "Invalid selection, choose between Arm or Bypass"), st, []).
Proof.
  intros Ha Hb. unfold set_user_preference, py_not_in, forallb.
  apply py_ne_str_true in Ha, Hb. rewrite Ha, Hb. reflexivity.
Qed.

(** C6: on a client with a session, [set_user_preference] called with
    strings [a], [b] and a [store_for] [c] that is Arm or Bypass issues one
    POST request whose parameter [name] is the string
    site.[a].partition.[b].storeFor[c]. *)
Theorem set_user_preference_sends_name net st sid a b new_code c :
  _session (self st) = Some sid ->
  c = "Arm" \/ c = "Bypass" ->
  exists q rest,
    events (set_user_preference py_str net (PyStr a) (PyStr b) new_code
              (PyStr c) st) = HttpCall q :: rest
    /\ (forall q', HttpCall q' ∉ rest)
    /\ req_method q = POST
    /\ req_params q !! "name"
       = Some (PyStr ("site." +:+ a +:+ ".partition." +:+ b
                      +:+ ".storeFor" +:+ c)).
Proof.
  intros Hs Hc.
  set (op := SetUserPreference (PyStr a) (PyStr b) new_code (PyStr c)).
  assert (Hrun : set_user_preference py_str net (PyStr a) (PyStr b) new_code
                   (PyStr c) st
                 = api_outcome py_str net POST API_ENDPOINT_SET_USER_PREFERANCE
                     (error_prefix op) (on_success op) (op_state op st)).
  { rewrite <- api_tail_outcome. unfold set_user_preference.
    replace (py_not_in (PyStr c) ["Arm"; "Bypass"]) with false
      by (destruct Hc as [-> | ->]; reflexivity).
    rewrite bind_getattr, !bind_dict_setitem. simpl.
    rewrite !bind_ret, !bind_dict_setitem. reflexivity. }
  rewrite Hrun. unfold api_outcome.
  change (self (op_state op st)) with (self st). rewrite Hs.
  set (q := request_of sid POST API_ENDPOINT_SET_USER_PREFERANCE
              (op_state op st)).
  assert (Hname : req_params q !! "name"
                  = Some (PyStr ("site." +:+ a +:+ ".partition." +:+ b
                                 +:+ ".storeFor" +:+ c))).
  { unfold q, request_of, op_state, op, op_params. simpl.
    rewrite lookup_insert_ne by done. rewrite lookup_insert_eq.
    rewrite !string_app_assoc. reflexivity. }
  assert (Hnil : forall q' : Request, HttpCall q' ∉ []).
  { intros q' H. inversion H. }
  destruct (net q) as [r|err]; [|exists q, []; auto].
  destruct (is_error_status r); [exists q, []; auto|].
  pose proof (after_response_events (error_prefix op) op r (op_state op st))
    as Hev.
  destruct (after_response py_str (error_prefix op) (on_success op) r
              (op_state op st)) as [[res st'] log].
  unfold events in *. simpl in *. subst log.
  exists q, [JsonDecode r]. split; [reflexivity|]. split; [|auto].
  intros q' H. apply list_elem_of_singleton in H. discriminate H.
Qed.

(** ** Session lifecycle *)

(** C9: [close_session] never raises; it marks the current session, if
    there is one, closed, and makes [self._session] a session that did not
    exist before, open, with [REQUEST_HEADER] laid over the default headers;
    token, email, password, timeout and [STD_PARAMS] are unchanged; [logout]
    does the same; and afterwards a request goes out on the new session and
    returns the payload of a successful response. *)
Theorem close_session_resets_session st :
  let x := close_session REQUEST_HEADER new_session_headers st in
  let sid' := length (sessions st) in
  result x = inr PyNone
  /\ logout REQUEST_HEADER new_session_headers st = x
  /\ _session (self (final x)) = Some sid'
  /\ sessions st !! sid' = None
  /\ sessions (final x) !! sid'
     = Some (mkSession false (REQUEST_HEADER ∪ new_session_headers))
  /\ (forall sid s,
        _session (self st) = Some sid ->
        sessions st !! sid = Some s ->
        sessions (final x) !! sid = Some (mkSession true (sess_headers s)))
  /\ (_token (self (final x)) = _token (self st)
      /\ _email (self (final x)) = _email (self st)
      /\ _password (self (final x)) = _password (self st)
      /\ _timeout (self (final x)) = _timeout (self st)
      /\ std_params (final x) = std_params st)
  /\ (forall net,
        exists q rest,
          events (get_sync_info py_str net (final x)) = HttpCall q :: rest
          /\ req_session q = sid')
  /\ (forall r d,
        is_error_status r = false ->
        json_body r = inr (PyDict d) ->
        d !! "status" = Some (PyStr "SUCCESS") ->
        result (get_sync_info py_str (always r) (final x)) = inr (PyDict d)).
Proof.
  intros x sid'.
  assert (Hx : x = _) by apply close_session_run.
  assert (Hlen : length (close_old st) = sid').
  { unfold close_old. destruct (_session (self st)); [|reflexivity].
    apply length_alter. }
  assert (Hsync : forall net,
             get_sync_info py_str net (final x)
             = api_outcome py_str net GET API_ENDPOINT_SYNC_INFO
                 (error_prefix GetSyncInfo) (on_success GetSyncInfo)
                 (op_state GetSyncInfo (final x))).
  { intros net. rewrite <- api_tail_outcome. unfold get_sync_info.
    rewrite bind_getattr, bind_dict_setitem. reflexivity. }
  split; [rewrite Hx; reflexivity|].
  split; [apply logout_run|].
  split; [rewrite Hx; reflexivity|].
  split; [apply lookup_ge_None_2; unfold sid'; lia|].
  split.
  { rewrite Hx. unfold final. simpl.
    rewrite lookup_app_r by lia. rewrite Hlen, Nat.sub_diag. reflexivity. }
  split.
  { intros sid s Hs Hl. rewrite Hx. unfold final. simpl.
    rewrite lookup_app_l.
    2:{ rewrite Hlen. apply lookup_lt_Some in Hl. exact Hl. }
    unfold close_old. rewrite Hs, list_lookup_alter_eq, Hl. reflexivity. }
  split; [rewrite Hx; repeat split; reflexivity|].
  split.
  - intros net. rewrite Hsync. unfold api_outcome.
    change (self (op_state GetSyncInfo (final x))) with (self (final x)).
    replace (_session (self (final x))) with (Some sid')
      by (rewrite Hx; reflexivity).
    set (q := request_of sid' GET API_ENDPOINT_SYNC_INFO _).
    destruct (net q) as [r|err]; [|exists q, []; split; reflexivity].
    destruct (is_error_status r); [exists q, []; split; reflexivity|].
    destruct (after_response _ _ _ _ _) as [[res st'] log].
    exists q, log. split; reflexivity.
  - intros r d Hs Hj Hst. rewrite Hsync. unfold api_outcome.
    change (self (op_state GetSyncInfo (final x))) with (self (final x)).
    replace (_session (self (final x))) with (Some sid')
      by (rewrite Hx; reflexivity).
    unfold always. rewrite Hs. unfold after_response. rewrite Hj, Hst.
    reflexivity.
Qed.

(** ** Parameters that outlive their call *)

Lemma op_params_other op c base key :
  key ∉ op_keys op -> op_params op c base !! key = base !! key.
Proof.
  intros Hk.
  destruct op; simpl in *;
    repeat (rewrite lookup_insert_ne;
            [|intros <-; apply Hk; repeat constructor]);
    reflexivity.
Qed.

(** What a method sent is what it leaves in [STD_PARAMS]. *)
Lemma http_call_final net op st q :
  HttpCall q ∈ events (run net op st) ->
  std_params (final (run net op st)) = req_params q.
Proof.
  intros Hq.
  destruct (http_call_outcome net op st q Hq) as (m & e & sid & Hc & _ & -> & _).
  destruct (run_op_outcome net op st) as [Hno | (m' & e' & _ & Hrun)].
  { destruct (Hno _ Hq). }
  rewrite Hrun.
  destruct (api_outcome_final net m' e' (error_prefix op) op (op_state op st))
    as (Hp & _).
  rewrite Hp. reflexivity.
Qed.

(** C1 does not hold of the code; this is what holds instead.  Whatever
    parameter the request of a call A carried, the request of the call B
    that follows it carries too, with the same value, unless B assigns that
    parameter itself. *)
Theorem parameters_outlive_their_call net1 net2 A B st qA qB key :
  HttpCall qA ∈ events (run net1 A st) ->
  HttpCall qB ∈ events (run net2 B (final (run net1 A st))) ->
  key ∉ op_keys B ->
  req_params qB !! key = req_params qA !! key.
Proof.
  intros HA HB Hk.
  rewrite <- (http_call_final net1 A st qA HA).
  destruct (http_call_outcome net2 B _ qB HB) as (m & e & sid & _ & _ & -> & _).
  unfold request_of, op_state. simpl. apply op_params_other. exact Hk.
Qed.

End Properties.

(** * Examples *)

Local Abbreviation xrun :=
  (run_op example_str example_headers example_session_headers).
Local Abbreviation xlogin := (login example_str).

(** ** C8 *)

Lemma connection_failure_example :
  op_call GetSyncInfo = Some (GET, API_ENDPOINT_SYNC_INFO)
  /\ op_ready GetSyncInfo example_state
  /\ _session (self example_state) = Some 0%nat
  /\ isinstance_ConnectionError requests_ProxyError = true
  /\ events (xrun (always_raises requests_ProxyError) GetSyncInfo
               example_state)
     = [HttpCall (example_request GET API_ENDPOINT_SYNC_INFO GetSyncInfo)]
  /\ result (xrun (always_raises requests_ProxyError) GetSyncInfo
               example_state)
     = inl (InvalidURL "A Invalid URL or Proxy error occured").
Proof.
  destruct (connection_failure_raises_InvalidURL example_str example_headers
              example_session_headers (always_raises requests_ProxyError)
              GetSyncInfo example_state GET API_ENDPOINT_SYNC_INFO 0%nat
              requests_ProxyError eq_refl I eq_refl eq_refl eq_refl)
    as (Hev & Hres & _).
  split; [reflexivity|]. split; [exact I|]. split; [reflexivity|].
  split; [reflexivity|]. split; [exact Hev|exact Hres].
Defined.

(** ** C2 *)

(** C2, as stated, fails: the server answers [get_sync_info] with a 302,
    which is not a 2xx status; [raise_for_status] lets it pass, the body is
    decoded and the payload is returned. *)
Lemma redirect_status_is_not_an_error :
  HttpCall (example_request GET API_ENDPOINT_SYNC_INFO GetSyncInfo)
    ∈ events (example_run (always response_redirect) GetSyncInfo example_state)
  /\ ~ (200 <= status_code response_redirect < 300)
  /\ result (example_run (always response_redirect) GetSyncInfo example_state)
     = inr example_success
  /\ result (example_run (always response_redirect) GetSyncInfo example_state)
     <> inl HTTPError
  /\ JsonDecode response_redirect
       ∈ events (example_run (always response_redirect) GetSyncInfo
                   example_state).
Proof.
  split; [vm_compute; apply list_elem_of_here|].
  split; [simpl; lia|].
  split; [vm_compute; reflexivity|].
  split; [vm_compute; intros H; discriminate H|].
  vm_compute. apply list_elem_of_further, list_elem_of_here.
Qed.

Lemma error_status_example :
  op_call GetSyncInfo = Some (GET, API_ENDPOINT_SYNC_INFO)
  /\ op_ready GetSyncInfo example_state
  /\ _session (self example_state) = Some 0%nat
  /\ 400 <= status_code response_not_found < 600
  /\ result (xrun (always response_not_found) GetSyncInfo example_state)
     = inl HTTPError
  /\ events (xrun (always response_not_found) GetSyncInfo example_state)
     = [HttpCall (example_request GET API_ENDPOINT_SYNC_INFO GetSyncInfo)]
  /\ ~ (400 <= status_code response_redirect < 600)
  /\ events (xrun (always response_redirect) GetSyncInfo example_state)
     = [HttpCall (example_request GET API_ENDPOINT_SYNC_INFO GetSyncInfo);
        JsonDecode response_redirect]
  /\ result (xrun (always response_success) GetSyncInfo example_state)
     = result (xrun (always response_redirect) GetSyncInfo example_state).
Proof.
  assert (H4 : 400 <= status_code response_not_found < 600)
    by (simpl; lia).
  assert (H3 : ~ (400 <= status_code response_redirect < 600))
    by (simpl; lia).
  assert (H2 : 200 <= status_code response_success < 300)
    by (simpl; lia).
  destruct (proj1 (error_status_raises_HTTPError example_str example_headers
                     example_session_headers (always response_not_found)
                     GetSyncInfo example_state GET API_ENDPOINT_SYNC_INFO
                     0%nat response_not_found eq_refl I eq_refl eq_refl) H4)
    as (Hres & Hev & _).
  destruct (proj2 (error_status_raises_HTTPError example_str example_headers
                     example_session_headers (always response_redirect)
                     GetSyncInfo example_state GET API_ENDPOINT_SYNC_INFO
                     0%nat response_redirect eq_refl I eq_refl eq_refl) H3)
    as (Hev' & Hsame).
  destruct (Hsame (always response_success) response_success eq_refl H2
              eq_refl eq_refl) as (Hres' & _).
  split; [reflexivity|]. split; [exact I|]. split; [reflexivity|].
  split; [exact H4|]. split; [exact Hres|]. split; [exact Hev|].
  split; [exact H3|]. split; [exact Hev'|exact Hres'].
Defined.

(** ** C7 *)

Lemma undecodable_body_example :
  op_call GetSyncInfo = Some (GET, API_ENDPOINT_SYNC_INFO)
  /\ op_ready GetSyncInfo example_state
  /\ _session (self example_state) = Some 0%nat
  /\ 200 <= status_code response_html < 300
  /\ exists msg,
       result (xrun (always response_html) GetSyncInfo example_state)
       = inl (PyAdtSecureHomeError msg)
       /\ msg = "Impossible to decode response: "
                +:+ "Expecting value: line 1 column 1 (char 0)" +:+ LF
                +:+ "Response was: " +:+ text response_html
       /\ contains (text response_html) msg
       /\ contains "Expecting value: line 1 column 1 (char 0)" msg.
Proof.
  assert (Hs : 200 <= status_code response_html < 300) by (simpl; lia).
  split; [reflexivity|]. split; [exact I|]. split; [reflexivity|].
  split; [exact Hs|].
  exact (undecodable_body_raises_client_error example_str example_headers
           example_session_headers (always response_html) GetSyncInfo
           example_state GET API_ENDPOINT_SYNC_INFO 0%nat response_html
           "Expecting value: line 1 column 1 (char 0)" eq_refl I eq_refl
           eq_refl Hs eq_refl).
Defined.

(** ** C3 *)

(** C3, as stated, fails twice.  For [login], a body that decodes to a
    mapping whose status is SUCCESS but which has no token is not returned:
    [login] raises [KeyError].  And a body that parses as JSON with a
    status other than SUCCESS does not give the generic error when it
    comes with a 500: the method raises [HTTPError]. *)
Lemma parsed_status_does_not_decide_alone :
  json_body response_no_token
  = inr (PyDict (<["status" := PyStr "SUCCESS"]> ∅))
  /\ result (example_run (always response_no_token) Login example_state)
     = inl (KeyError "token")
  /\ result (example_run (always response_no_token) Login example_state)
     <> inr (PyDict (<["status" := PyStr "SUCCESS"]> ∅))
  /\ json_body response_server_error
     = inr (PyDict (<["status" := PyStr "FAILED"]> ∅))
  /\ result (example_run (always response_server_error) GetSyncInfo
               example_state) = inl HTTPError
  /\ forall msg,
       result (example_run (always response_server_error) GetSyncInfo
                 example_state) <> inl (PyAdtSecureHomeError msg).
Proof.
  split; [reflexivity|].
  split; [vm_compute; reflexivity|].
  split; [vm_compute; intros H; discriminate H|].
  split; [reflexivity|].
  split; [vm_compute; reflexivity|].
  intros msg. vm_compute. intros H. discriminate H.
Qed.

Lemma status_field_example :
  op_call ArmSite_example = Some (GET, API_ENDPOINT_ARM_SITE)
  /\ op_ready ArmSite_example example_state
  /\ _session (self example_state) = Some 0%nat
  /\ ~ (400 <= status_code response_failure < 600)
  /\ result (xrun (always response_failure) ArmSite_example example_state)
     = inl (PyAdtSecureHomeError
              ("Arm site failed: " +:+ example_str example_failure))
  /\ result (xrun (always response_success) ArmSite_example example_state)
     = inr example_success
  /\ result (xrun (always response_success) Login example_state)
     = inr example_success
  /\ result (xrun (always response_no_token) Login example_state)
     = inl (KeyError "token").
Proof.
  assert (Hf : ~ (400 <= status_code response_failure < 600))
    by (simpl; lia).
  assert (Hs : ~ (400 <= status_code response_success < 600))
    by (simpl; lia).
  assert (Hn : ~ (400 <= status_code response_no_token < 600))
    by (simpl; lia).
  destruct (proj1 (status_field_decides example_str example_headers
                     example_session_headers (always response_failure)
                     ArmSite_example example_state GET API_ENDPOINT_ARM_SITE
                     0%nat response_failure
                     (<["status" := PyStr "FAILED"]> ∅) (PyStr "FAILED")
                     eq_refl I eq_refl eq_refl Hf eq_refl eq_refl))
    as (msg & Hres & -> & _).
  { intros H. discriminate H. }
  destruct (proj2 (status_field_decides example_str example_headers
                     example_session_headers (always response_success)
                     ArmSite_example example_state GET API_ENDPOINT_ARM_SITE
                     0%nat response_success
                     (<["status" := PyStr "SUCCESS"]>
                        (<["token" := PyStr "abc123"]> ∅))
                     (PyStr "SUCCESS")
                     eq_refl I eq_refl eq_refl Hs eq_refl eq_refl) eq_refl)
    as (Harm & _).
  destruct (proj2 (status_field_decides example_str example_headers
                     example_session_headers (always response_success)
                     Login example_state GET API_ENDPOINT_LOGIN
                     0%nat response_success
                     (<["status" := PyStr "SUCCESS"]>
                        (<["token" := PyStr "abc123"]> ∅))
                     (PyStr "SUCCESS")
                     eq_refl I eq_refl eq_refl Hs eq_refl eq_refl) eq_refl)
    as (_ & Hlogin & _).
  destruct (proj2 (status_field_decides example_str example_headers
                     example_session_headers (always response_no_token)
                     Login example_state GET API_ENDPOINT_LOGIN
                     0%nat response_no_token
                     (<["status" := PyStr "SUCCESS"]> ∅)
                     (PyStr "SUCCESS")
                     eq_refl I eq_refl eq_refl Hn eq_refl eq_refl) eq_refl)
    as (_ & _ & Hnone).
  split; [reflexivity|]. split; [exact I|]. split; [reflexivity|].
  split; [exact Hf|]. split; [exact Hres|]. split.
  { apply Harm. intros H. discriminate H. }
  split.
  { apply Hlogin; [reflexivity|]. exists (PyStr "abc123"). reflexivity. }
  apply Hnone; reflexivity.
Defined.

(** ** C4 *)

(** A successful [login] changes more than the token: [STD_PARAMS] had
    no password entry before the call and has the client's password
    afterwards. *)
Lemma login_also_writes_STD_PARAMS :
  result (example_run (always response_success) Login example_state)
  = inr example_success
  /\ std_params example_state !! "password" = None
  /\ std_params (final (example_run (always response_success) Login
                          example_state)) !! "password"
     = Some (PyStr "hunter2")
  /\ std_params (final (example_run (always response_success) Login
                          example_state))
     <> std_params example_state.
Proof.
  split; [vm_compute; reflexivity|].
  split; [vm_compute; reflexivity|].
  assert (H : std_params (final (example_run (always response_success) Login
                                   example_state)) !! "password"
              = Some (PyStr "hunter2")).
  { vm_compute. reflexivity. }
  split; [exact H|].
  intros Heq. rewrite Heq in H. vm_compute in H. discriminate H.
Qed.

Lemma login_stores_token_example :
  std_params example_state !! "password" = None
  /\ std_params (final (xlogin (always response_success) example_state))
     = <["password" := PyStr "hunter2"]>
         (<["email" := PyStr "user@example.com"]>
            (std_params example_state))
  /\ _session (self example_state) = Some 0%nat
  /\ ~ (400 <= status_code response_success < 600)
  /\ result (xlogin (always response_success) example_state)
     = inr example_success
  /\ _token (self (final (xlogin (always response_success) example_state)))
     = PyStr "abc123"
  /\ self (final (xlogin (always response_success) example_state))
     = set_token (PyStr "abc123") (self example_state)
  /\ result (xlogin (always response_failure) example_state)
     = inl (PyAdtSecureHomeError
              ("Login error: " +:+ example_str example_failure))
  /\ self (final (xlogin (always response_failure) example_state))
     = self example_state.
Proof.
  assert (Hs : ~ (400 <= status_code response_success < 600))
    by (simpl; lia).
  destruct (login_stores_token example_str (always response_success)
              example_state) as (Hp & Hok & _).
  destruct (Hok 0%nat response_success
              (<["status" := PyStr "SUCCESS"]>
                 (<["token" := PyStr "abc123"]> ∅))
              (PyStr "abc123") eq_refl eq_refl Hs eq_refl eq_refl eq_refl)
    as (Hres & Htok & Hself & _).
  assert (Hfail : result (xlogin (always response_failure) example_state)
                  = inl (PyAdtSecureHomeError
                           ("Login error: " +:+ example_str example_failure))).
  { vm_compute. reflexivity. }
  destruct (proj2 (proj2 (login_stores_token example_str
                            (always response_failure) example_state))
              _ Hfail) as (Hsame & _).
  split; [vm_compute; reflexivity|]. split; [exact Hp|].
  split; [reflexivity|]. split; [exact Hs|]. split; [exact Hres|].
  split; [exact Htok|]. split; [exact Hself|]. split; [exact Hfail|].
  exact Hsame.
Defined.

(** ** C5 *)

Lemma invalid_store_for_example :
  PyStr "Invalid" <> PyStr "Arm"
  /\ PyStr "Invalid" <> PyStr "Bypass"
  /\ set_user_preference example_str (always response_success) (PyStr "1")
       (PyStr "2") (PyInt 1234) (PyStr "Invalid") example_state
     = (inl (PyAdtSecureHomeError
               "Invalid selection, choose between Arm or Bypass"),
        example_state, []).
Proof.
  assert (Ha : PyStr "Invalid" <> PyStr "Arm") by (intros H; discriminate H).
  assert (Hb : PyStr "Invalid" <> PyStr "Bypass") by (intros H; discriminate H).
  split; [exact Ha|]. split; [exact Hb|].
  exact (invalid_store_for_fails_before_request example_str
           (always response_success) (PyStr "1") (PyStr "2") (PyInt 1234)
           (PyStr "Invalid") example_state Ha Hb).
Defined.

(** ** C6 *)

Lemma set_user_preference_name_example :
  _session (self example_state) = Some 0%nat
  /\ exists q rest,
       events (set_user_preference example_str (always response_success)
                 (PyStr "1") (PyStr "2") (PyInt 1234) (PyStr "Arm")
                 example_state) = HttpCall q :: rest
       /\ (forall q', HttpCall q' ∉ rest)
       /\ req_method q = POST
       /\ req_params q !! "name" = Some (PyStr "site.1.partition.2.storeForArm").
Proof.
  split; [reflexivity|].
  exact (set_user_preference_sends_name example_str (always response_success)
           example_state 0%nat "1" "2" (PyInt 1234) "Arm" eq_refl
           (or_introl eq_refl)).
Defined.

(** ** C10 *)

Lemma missing_key_example :
  op_call CheckAppVersion = Some (GET, API_ENDPOINT_CHECK_APP_VERSION)
  /\ op_ready CheckAppVersion example_state
  /\ _session (self example_state) = Some 0%nat
  /\ ~ (400 <= status_code response_no_status < 600)
  /\ result (xrun (always response_no_status) CheckAppVersion example_state)
     = inl (KeyError "status")
  /\ result (xrun (always response_no_token) Login example_state)
     = inl (KeyError "token")
  /\ _token (self (final (xrun (always response_no_token) Login
                            example_state)))
     = _token (self example_state).
Proof.
  assert (Hr : op_ready CheckAppVersion example_state).
  { exists (PyStr "0"). reflexivity. }
  assert (H1 : ~ (400 <= status_code response_no_status < 600))
    by (simpl; lia).
  assert (H2 : ~ (400 <= status_code response_no_token < 600))
    by (simpl; lia).
  split; [reflexivity|]. split; [exact Hr|]. split; [reflexivity|].
  split; [exact H1|]. split.
  - exact (proj1 (missing_key_raises_KeyError example_str example_headers
                    example_session_headers (always response_no_status)
                    CheckAppVersion example_state GET
                    API_ENDPOINT_CHECK_APP_VERSION 0%nat response_no_status
                    (<["token" := PyStr "abc123"]> ∅)
                    eq_refl Hr eq_refl eq_refl H1 eq_refl) eq_refl).
  - exact (proj2 (missing_key_raises_KeyError example_str example_headers
                    example_session_headers (always response_no_token)
                    Login example_state GET API_ENDPOINT_LOGIN 0%nat
                    response_no_token (<["status" := PyStr "SUCCESS"]> ∅)
                    eq_refl I eq_refl eq_refl H2 eq_refl)
             eq_refl eq_refl eq_refl).
Defined.

(** ** C9 *)

Lemma close_session_example :
  result (close_session example_headers example_session_headers example_state)
  = inr PyNone
  /\ _session (self (final (close_session example_headers
                              example_session_headers example_state)))
     = Some 1%nat
  /\ sessions (final (close_session example_headers example_session_headers
                        example_state))
     = [mkSession true (example_headers ∪ example_session_headers);
        mkSession false (example_headers ∪ example_session_headers)]
  /\ result (get_sync_info example_str (always response_success)
               (final (close_session example_headers example_session_headers
                         example_state)))
     = inr example_success.
Proof.
  pose proof (close_session_resets_session example_str example_headers
                example_session_headers example_state) as H.
  cbv zeta in H.
  destruct H as (Hres & _ & Hsid & _ & _ & _ & _ & _ & Hnext).
  split; [exact Hres|]. split; [exact Hsid|].
  split; [vm_compute; reflexivity|].
  exact (Hnext response_success _ eq_refl eq_refl eq_refl).
Defined.

(** ** C1 *)

(** On a client whose [STD_PARAMS] holds neither credentials nor a pin,
    the request of [get_sync_info] carries the password that the [login]
    before it wrote, and after [arm_site] it carries the pin. *)
Lemma parameters_leak_example :
  std_params example_state !! "password" = None
  /\ std_params example_state !! "pin" = None
  /\ ("password" ∉ op_keys GetSyncInfo)
  /\ ("pin" ∉ op_keys GetSyncInfo)
  /\ HttpCall (example_request GET API_ENDPOINT_LOGIN Login)
       ∈ events (example_run (always response_success) Login example_state)
  /\ HttpCall (request_after Login)
       ∈ events (example_run (always response_success) GetSyncInfo
                   (final (example_run (always response_success) Login
                             example_state)))
  /\ req_params (request_after Login) !! "password" = Some (PyStr "hunter2")
  /\ HttpCall (request_after ArmSite_example)
       ∈ events (example_run (always response_success) GetSyncInfo
                   (final (example_run (always response_success)
                             ArmSite_example example_state)))
  /\ req_params (request_after ArmSite_example) !! "pin" = Some (PyInt 1234).
Proof.
  assert (Hk1 : "password" ∉ op_keys GetSyncInfo).
  { intros H. apply list_elem_of_singleton in H. discriminate H. }
  assert (Hk2 : "pin" ∉ op_keys GetSyncInfo).
  { intros H. apply list_elem_of_singleton in H. discriminate H. }
  assert (HA1 : HttpCall (example_request GET API_ENDPOINT_LOGIN Login)
                  ∈ events (run_op example_str example_headers
                              example_session_headers
                              (always response_success) Login
                              example_state)).
  { vm_compute. apply list_elem_of_here. }
  assert (HB1 : HttpCall (request_after Login)
                  ∈ events (run_op example_str example_headers
                              example_session_headers
                              (always response_success) GetSyncInfo
                              (final (run_op example_str example_headers
                                        example_session_headers
                                        (always response_success) Login
                                        example_state)))).
  { vm_compute. apply list_elem_of_here. }
  assert (HA2 : HttpCall (example_request GET API_ENDPOINT_ARM_SITE
                            ArmSite_example)
                  ∈ events (run_op example_str example_headers
                              example_session_headers
                              (always response_success) ArmSite_example
                              example_state)).
  { vm_compute. apply list_elem_of_here. }
  assert (HB2 : HttpCall (request_after ArmSite_example)
                  ∈ events (run_op example_str example_headers
                              example_session_headers
                              (always response_success) GetSyncInfo
                              (final (run_op example_str example_headers
                                        example_session_headers
                                        (always response_success)
                                        ArmSite_example example_state)))).
  { vm_compute. apply list_elem_of_here. }
  split; [vm_compute; reflexivity|]. split; [vm_compute; reflexivity|].
  split; [exact Hk1|]. split; [exact Hk2|].
  split; [vm_compute; apply list_elem_of_here|].
  split; [vm_compute; apply list_elem_of_here|]. split.
  - refine (eq_trans
              (parameters_outlive_their_call example_str example_headers
                 example_session_headers (always response_success)
                 (always response_success) Login GetSyncInfo example_state
                 (example_request GET API_ENDPOINT_LOGIN Login)
                 (request_after Login) "password" HA1 HB1 Hk1) _).
    vm_compute. reflexivity.
  - split; [vm_compute; apply list_elem_of_here|].
    refine (eq_trans
              (parameters_outlive_their_call example_str example_headers
                 example_session_headers (always response_success)
                 (always response_success) ArmSite_example GetSyncInfo
                 example_state
                 (example_request GET API_ENDPOINT_ARM_SITE ArmSite_example)
                 (request_after ArmSite_example) "pin" HA2 HB2 Hk2) _).
    vm_compute. reflexivity.
Defined.

(** * Further properties *)

Section MoreProperties.

Context (py_str : pyval -> string).
Context (REQUEST_HEADER new_session_headers : gmap string string).

Local Abbreviation run := (run_op py_str REQUEST_HEADER new_session_headers).
Local Abbreviation calls_from :=
  (run_calls py_str REQUEST_HEADER new_session_headers).
Local Abbreviation init :=
  (__init__ REQUEST_HEADER new_session_headers).

(** ** The session over a client's life *)

Lemma run_op_keeps_open_session net op st :
  has_open_session st -> has_open_session (final (run net op st)).
Proof.
  intros (sid & s & Hsid & Hs & Hopen).
  destruct (run_op_cases py_str REQUEST_HEADER new_session_headers net op st)
    as [[_ Hrun] | [(Hc & _) | (m & e & Hc & _)]].
  - rewrite Hrun, close_session_run. unfold has_open_session, final. simpl.
    exists (length (sessions st)),
      (mkSession false (REQUEST_HEADER ∪ new_session_headers)).
    split; [reflexivity|]. split; [|reflexivity].
    assert (Hlen : length (close_old st) = length (sessions st)).
    { unfold close_old. destruct (_session (self st)); [|reflexivity].
      apply length_alter. }
    rewrite lookup_app_r by lia. rewrite Hlen, Nat.sub_diag. reflexivity.
  - destruct (api_op_frame py_str REQUEST_HEADER new_session_headers net op st Hc)
      as (Hsess & [Hself | (_ & tok & Hself)]);
      exists sid, s; rewrite Hsess, Hself; auto.
  - assert (Hc' : is_Some (op_call op)) by (rewrite Hc; eexists; reflexivity).
    destruct (api_op_frame py_str REQUEST_HEADER new_session_headers net op st Hc')
      as (Hsess & [Hself | (_ & tok & Hself)]);
      exists sid, s; rewrite Hsess, Hself; auto.
Qed.

Lemma run_calls_keeps_open_session calls st :
  has_open_session st -> has_open_session (calls_from calls st).
Proof.
  revert st. induction calls as [|[net op] rest IH]; intros st H.
  - exact H.
  - simpl. apply IH, run_op_keeps_open_session, H.
Qed.

(** X1: from its construction on, and after any sequence of public
    method calls whatever they returned or raised, the client refers to a
    session that exists and has not been closed. *)
Theorem client_always_has_open_session
    email password timeout token st0 calls :
  has_open_session
    (calls_from calls (final (init email password timeout token st0))).
Proof.
  apply run_calls_keeps_open_session. rewrite init_run.
  unfold has_open_session, final. simpl.
  exists (length (sessions st0)),
    (mkSession false (REQUEST_HEADER ∪ new_session_headers)).
  split; [reflexivity|]. split; [|reflexivity].
  rewrite lookup_app_r by lia. rewrite Nat.sub_diag. reflexivity.
Qed.

Lemma close_session_keeps_one_open st :
  one_open_session st ->
  one_open_session
    (final (close_session REQUEST_HEADER new_session_headers st)).
Proof.
  intros Hone. rewrite close_session_run.
  unfold one_open_session, final. simpl. intros i s.
  assert (Hlen : length (close_old st) = length (sessions st)).
  { unfold close_old. destruct (_session (self st)); [|reflexivity].
    apply length_alter. }
  intros Hl Hopen.
  destruct (decide (i < length (sessions st))%nat) as [Hlt|Hge].
  - exfalso. rewrite lookup_app_l in Hl by lia.
    unfold close_old in Hl.
    destruct (_session (self st)) as [sid|] eqn:Hsid.
    + destruct (decide (sid = i)) as [->|Hne].
      * rewrite list_lookup_alter_eq in Hl.
        destruct (sessions st !! i) as [s0|]; [|discriminate Hl].
        simpl in Hl. injection Hl as <-. discriminate Hopen.
      * rewrite list_lookup_alter_ne in Hl by exact Hne.
        specialize (Hone i s Hl Hopen). congruence.
    + specialize (Hone i s Hl Hopen). rewrite Hsid in Hone. discriminate Hone.
  - apply lookup_lt_Some in Hl. rewrite length_app, Hlen in Hl. simpl in Hl.
    f_equal. lia.
Qed.

Lemma run_op_keeps_one_open net op st :
  one_open_session st -> one_open_session (final (run net op st)).
Proof.
  intros Hone.
  destruct (run_op_cases py_str REQUEST_HEADER new_session_headers net op st)
    as [[_ Hrun] | [(Hc & _) | (m & e & Hc & _)]].
  - rewrite Hrun. apply close_session_keeps_one_open, Hone.
  - destruct (api_op_frame py_str REQUEST_HEADER new_session_headers net op st Hc)
      as (Hsess & [Hself | (_ & tok & Hself)]);
      intros i s; rewrite Hsess, Hself; apply Hone.
  - assert (Hc' : is_Some (op_call op)) by (rewrite Hc; eexists; reflexivity).
    destruct (api_op_frame py_str REQUEST_HEADER new_session_headers net op st Hc')
      as (Hsess & [Hself | (_ & tok & Hself)]);
      intros i s; rewrite Hsess, Hself; apply Hone.
Qed.

Lemma run_calls_keeps_one_open calls st :
  one_open_session st -> one_open_session (calls_from calls st).
Proof.
  revert st. induction calls as [|[net op] rest IH]; intros st H.
  - exact H.
  - simpl. apply IH, run_op_keeps_one_open, H.
Qed.

(** X2: a client constructed when no session is open never holds more
    than one open session: each [close_session] and [logout] closes the
    session it replaces, and no other method opens one. *)
Theorem client_never_leaks_a_session
    email password timeout token st0 calls :
  (forall i s, sessions st0 !! i = Some s -> sess_closed s = true) ->
  one_open_session
    (calls_from calls (final (init email password timeout token st0))).
Proof.
  intros Hclosed. apply run_calls_keeps_one_open. rewrite init_run.
  unfold one_open_session, final. simpl. intros i s Hl Hopen.
  destruct (decide (i < length (sessions st0))%nat) as [Hlt|Hge].
  - rewrite lookup_app_l in Hl by lia.
    rewrite (Hclosed i s Hl) in Hopen. discriminate Hopen.
  - apply lookup_lt_Some in Hl. rewrite length_app in Hl. simpl in Hl.
    f_equal. lia.
Qed.

(** ** What a call changes, and what it returns *)

(** A tail that returned got a response that passed [raise_for_status]
    and decoded to a mapping with status SUCCESS, which is what it
    returned. *)
Lemma api_outcome_returns net m e p op st v :
  result (api_outcome py_str net m e p (on_success op) st) = inr v ->
  exists sid r d,
    _session (self st) = Some sid
    /\ net (request_of sid m e st) = Respond r
    /\ is_error_status r = false
    /\ json_body r = inr v
    /\ v = PyDict d
    /\ d !! "status" = Some (PyStr "SUCCESS")
    /\ (op <> Login ->
        self (final (api_outcome py_str net m e p (on_success op) st))
        = self st)
    /\ (op = Login ->
        exists tok,
          d !! "token" = Some tok
          /\ self (final (api_outcome py_str net m e p (on_success op) st))
             = set_token tok (self st)).
Proof.
  unfold api_outcome.
  destruct (_session (self st)) as [sid|]; [|intros H; discriminate H].
  destruct (net (request_of sid m e st)) as [r|err] eqn:Hnet;
    [|intros H; discriminate H].
  destruct (is_error_status r) eqn:Hs; [intros H; discriminate H|].
  unfold after_response.
  destruct (json_body r) as [reason|v0] eqn:Hj; [intros H; discriminate H|].
  destruct v0; try (intros H; discriminate H).
  destruct (d !! "status") as [status|] eqn:Hst; [|intros H; discriminate H].
  destruct (py_ne_str status "SUCCESS") eqn:Hne; [intros H; discriminate H|].
  apply py_ne_str_false in Hne. subst status.
  rewrite on_success_run.
  destruct op;
    try (intros H; injection H as <-;
         exists sid, r, d;
         do 6 (split; [first [reflexivity | assumption]|]);
         split; [intros _; reflexivity | intros Hl; discriminate Hl]).
  destruct (d !! "token") as [tok|] eqn:Htok; [|intros H; discriminate H].
  intros H. injection H as <-.
  exists sid, r, d. do 6 (split; [first [reflexivity | assumption]|]). split.
  - intros Hl. destruct (Hl eq_refl).
  - intros _. exists tok. split; [exact Htok | reflexivity].
Qed.

(** A tail that raised left [self] as it was. *)
Lemma api_outcome_raises net m e p op st err :
  result (api_outcome py_str net m e p (on_success op) st) = inl err ->
  self (final (api_outcome py_str net m e p (on_success op) st)) = self st.
Proof.
  unfold api_outcome.
  destruct (_session (self st)) as [sid|]; [|reflexivity].
  destruct (net _) as [r|e0]; [|reflexivity].
  destruct (is_error_status r); [reflexivity|].
  unfold after_response.
  destruct (json_body r) as [reason|v]; [reflexivity|].
  destruct v; try reflexivity.
  destruct (d !! "status") as [status|]; [|reflexivity].
  destruct (py_ne_str status "SUCCESS"); [reflexivity|].
  rewrite on_success_run.
  destruct op; try reflexivity.
  destruct (d !! "token") as [tok|]; [|reflexivity].
  intros H. discriminate H.
Qed.

(** X3: an API method never touches the sessions; it leaves every
    attribute of the client as it was whenever it raises, and also when it
    returns unless it is [login], which then has set the token to the
    [token] field of the payload it returns and changed nothing else. *)
Theorem api_methods_keep_client net op st :
  is_Some (op_call op) ->
  sessions (final (run net op st)) = sessions st
  /\ (forall err,
        result (run net op st) = inl err ->
        self (final (run net op st)) = self st)
  /\ (op <> Login -> self (final (run net op st)) = self st)
  /\ (op = Login ->
      forall v,
        result (run net op st) = inr v ->
        exists d tok,
          v = PyDict d /\ d !! "token" = Some tok
          /\ self (final (run net op st)) = set_token tok (self st)).
Proof.
  intros Hc.
  destruct (run_op_cases py_str REQUEST_HEADER new_session_headers net op st)
    as [[Hn _] | [(_ & _ & err & st1 & Hrun & Hself & Hsess)
                 | (m & e & _ & Hrun)]].
  - rewrite Hn in Hc. destruct Hc as [x Hx]. discriminate Hx.
  - rewrite Hrun. split; [exact Hsess|]. split; [intros _ _; exact Hself|].
    split; [intros _; exact Hself|].
    intros _ v H. discriminate H.
  - rewrite Hrun.
    destruct (api_outcome_final py_str net m e (error_prefix op) op
                (op_state op st)) as (_ & Hsess & Hself).
    split; [exact Hsess|]. split; [|split].
    + intros err H. apply (api_outcome_raises _ _ _ _ _ _ _ H).
    + intros Hne. destruct Hself as [Hself | (Hl & _)]; [exact Hself|].
      destruct (Hne Hl).
    + intros Hl v H.
      destruct (api_outcome_returns _ _ _ _ _ _ _ H)
        as (sid & r & d & _ & _ & _ & _ & -> & _ & _ & Hlog).
      destruct (Hlog Hl) as (tok & Htok & Hs).
      exists d, tok. split; [reflexivity|]. split; [exact Htok|exact Hs].
Qed.

(** X4: an API method returns only what the server sent as a decoded
    mapping with status SUCCESS, in a response to its own request whose
    HTTP status is outside 400..599. *)
Theorem returned_payload_has_status_SUCCESS net op st v :
  is_Some (op_call op) ->
  result (run net op st) = inr v ->
  exists q r d,
    HttpCall q ∈ events (run net op st)
    /\ net q = Respond r
    /\ ~ (400 <= status_code r < 600)
    /\ json_body r = inr v
    /\ v = PyDict d
    /\ d !! "status" = Some (PyStr "SUCCESS").
Proof.
  intros Hc Hres.
  destruct (run_op_cases py_str REQUEST_HEADER new_session_headers net op st)
    as [[Hn _] | [(_ & _ & err & st1 & Hrun & _) | (m & e & _ & Hrun)]].
  - rewrite Hn in Hc. destruct Hc as [x Hx]. discriminate Hx.
  - rewrite Hrun in Hres. discriminate Hres.
  - rewrite Hrun in Hres |- *.
    destruct (api_outcome_returns _ _ _ _ _ _ _ Hres)
      as (sid & r & d & Hsid & Hnet & Hs & Hj & Hv & Hst & _).
    exists (request_of sid m e (op_state op st)), r, d.
    split.
    { unfold api_outcome. rewrite Hsid, Hnet, Hs.
      destruct (after_response _ _ _ _ _) as [[res st'] log].
      apply list_elem_of_here. }
    split; [exact Hnet|]. split.
    { intros [Hlo Hhi]. unfold is_error_status in Hs.
      apply andb_false_iff in Hs as [Hs|Hs].
      - apply Z.leb_gt in Hs. lia.
      - apply Z.ltb_ge in Hs. lia. }
    split; [exact Hj|]. split; [exact Hv|exact Hst].
Qed.

(** ** The request *)

(** X5: whatever request a public method issues goes to the endpoint of
    that method under the fixed base URL with the method's verb, on the
    client's current session, with redirects disabled, the client's timeout,
    and as parameters [STD_PARAMS] with the method's own fields assigned. *)
Theorem issued_request_is_well_formed net op st q :
  HttpCall q ∈ events (run net op st) ->
  exists m e,
    op_call op = Some (m, e)
    /\ req_method q = m
    /\ req_url q = "https://" +:+ BASE_URL +:+ e
    /\ req_allow_redirects q = false
    /\ req_timeout q = _timeout (self st)
    /\ _session (self st) = Some (req_session q)
    /\ req_params q = op_params op (self st) (std_params st).
Proof.
  intros Hq.
  destruct (http_call_outcome py_str REQUEST_HEADER new_session_headers
              net op st q Hq) as (m & e & sid & Hc & Hs & -> & _).
  exists m, e. split; [exact Hc|]. split; [reflexivity|].
  split; [reflexivity|]. split; [reflexivity|]. split; [reflexivity|].
  split; [exact Hs | reflexivity].
Qed.

(** X6: an API method makes one round trip at most and never retries:
    its events are none, or one request, or one request followed by one
    decoding of the response to that request. *)
Theorem one_round_trip_at_most net op st :
  is_Some (op_call op) ->
  events (run net op st) = []
  \/ exists q,
       events (run net op st) = [HttpCall q]
       \/ exists r,
            net q = Respond r
            /\ events (run net op st) = [HttpCall q; JsonDecode r].
Proof.
  intros Hc.
  destruct (run_op_cases py_str REQUEST_HEADER new_session_headers net op st)
    as [[Hn _] | [(_ & _ & err & st1 & Hrun & _) | (m & e & _ & Hrun)]].
  - rewrite Hn in Hc. destruct Hc as [x Hx]. discriminate Hx.
  - left. rewrite Hrun. reflexivity.
  - rewrite Hrun. unfold api_outcome.
    destruct (_session (self (op_state op st))) as [sid|];
      [|left; reflexivity].
    right. exists (request_of sid m e (op_state op st)).
    destruct (net _) as [r|e0] eqn:Hnet; [|left; reflexivity].
    destruct (is_error_status r); [left; reflexivity|].
    right. exists r. split; [reflexivity|].
    pose proof (after_response_events py_str (error_prefix op) op r
                  (op_state op st)) as Hev.
    destruct (after_response py_str (error_prefix op) (on_success op) r
                (op_state op st)) as [[res st'] log].
    unfold events in *. simpl in *. rewrite Hev. reflexivity.
Qed.

Lemma op_params_token op c base :
  is_Some (op_call op) -> op <> Login ->
  op_params op c base !! "token" = Some (_token c).
Proof.
  intros Hc Hne.
  destruct op; simpl;
    try (destruct (Hne eq_refl));
    try (destruct Hc as [x Hx]; discriminate Hx);
    repeat first [ rewrite lookup_insert_eq; reflexivity
                 | rewrite lookup_insert_ne by done ].
Qed.

(** X7: the token a successful [login] found in the payload is the token
    every other API method called next sends as its [token] parameter. *)
Theorem login_token_is_sent_next net1 net2 st d tok B q :
  result (login py_str net1 st) = inr (PyDict d) ->
  d !! "token" = Some tok ->
  B <> Login ->
  HttpCall q ∈ events (run net2 B (final (login py_str net1 st))) ->
  req_params q !! "token" = Some tok.
Proof.
  intros Hres Htok Hne Hq.
  assert (Hself : self (final (login py_str net1 st))
                  = set_token tok (self st)).
  { rewrite login_outcome in Hres |- *.
    destruct (api_outcome_returns _ _ _ _ _ _ _ Hres)
      as (sid & r & d' & _ & _ & _ & _ & Hv & _ & _ & Hlog).
    injection Hv as <-.
    destruct (Hlog eq_refl) as (tok' & Htok' & Hs).
    rewrite Htok in Htok'. injection Htok' as <-. exact Hs. }
  destruct (http_call_outcome py_str REQUEST_HEADER new_session_headers
              net2 B _ q Hq) as (m & e & sid & Hc & _ & -> & _).
  unfold request_of, op_state. simpl.
  rewrite op_params_token.
  - rewrite Hself. reflexivity.
  - rewrite Hc. eexists. reflexivity.
  - exact Hne.
Qed.

(** ** Failures the methods do not translate *)



(** ** Calls that stop before their request *)

Lemma check_app_version_no_imei net st :
  std_params st !! "imei" = None ->
  check_app_version py_str net st
  = (inl (KeyError "imei"),
     mkState (<["token" := _token (self st)]> (std_params st)) (sessions st)
       (self st), []).
Proof.
  intros Hi. unfold check_app_version.
  rewrite bind_getattr, bind_dict_setitem.
  erewrite bind_fail; [reflexivity|].
  unfold dict_getitem. simpl. rewrite lookup_insert_ne by done.
  rewrite Hi. reflexivity.
Qed.

(** X10: when [STD_PARAMS] has no [imei] entry, [check_app_version] raises
    [KeyError] without issuing a request; it has by then already written
    the token into [STD_PARAMS], and changed nothing else. *)
Theorem check_app_version_needs_imei net st :
  std_params st !! "imei" = None ->
  result (check_app_version py_str net st) = inl (KeyError "imei")
  /\ events (check_app_version py_str net st) = []
  /\ std_params (final (check_app_version py_str net st))
     = <["token" := _token (self st)]> (std_params st)
  /\ self (final (check_app_version py_str net st)) = self st
  /\ sessions (final (check_app_version py_str net st)) = sessions st.
Proof.
  intros Hi. rewrite (check_app_version_no_imei net st Hi).
  repeat split.
Qed.

Lemma set_user_preference_bad_ids net site_id partition_id new_code store_for st :
  py_not_in store_for ["Arm"; "Bypass"] = false ->
  (forall s, site_id <> PyStr s) \/ (forall s, partition_id <> PyStr s) ->
  set_user_preference py_str net site_id partition_id new_code store_for st
  = (inl TypeError,
     mkState (<["siteId" := site_id]>
                (<["token" := _token (self st)]> (std_params st)))
       (sessions st) (self st), []).
Proof.
  intros Hv Hbad. unfold set_user_preference. rewrite Hv.
  rewrite bind_getattr, !bind_dict_setitem.
  destruct site_id; try reflexivity.
  destruct Hbad as [Hbad|Hbad]; [destruct (Hbad s eq_refl)|].
  destruct partition_id; try reflexivity.
  destruct (Hbad s0 eq_refl).
Qed.

(** X11: [set_user_preference] called with Arm or Bypass but with a site
    id or a partition id that is not a string (the default [None], or an
    integer) raises [TypeError] while composing the name, before any
    request; the token and the site id are by then in [STD_PARAMS]. *)
Theorem set_user_preference_needs_string_ids
    net site_id partition_id new_code store_for st :
  store_for = PyStr "Arm" \/ store_for = PyStr "Bypass" ->
  (forall s, site_id <> PyStr s) \/ (forall s, partition_id <> PyStr s) ->
  result (set_user_preference py_str net site_id partition_id new_code
            store_for st) = inl TypeError
  /\ events (set_user_preference py_str net site_id partition_id new_code
               store_for st) = []
  /\ std_params (final (set_user_preference py_str net site_id partition_id
                          new_code store_for st))
     = <["siteId" := site_id]>
         (<["token" := _token (self st)]> (std_params st))
  /\ self (final (set_user_preference py_str net site_id partition_id
                    new_code store_for st)) = self st.
Proof.
  intros Hv Hbad.
  rewrite (set_user_preference_bad_ids net site_id partition_id new_code
             store_for st).
  - repeat split.
  - destruct Hv as [-> | ->]; reflexivity.
  - exact Hbad.
Qed.

(** ** What the calls do to [STD_PARAMS] *)

Lemma run_op_params_other net op st key :
  key ∉ op_keys op ->
  std_params (final (run net op st)) !! key = std_params st !! key.
Proof.
  intros Hk.
  destruct (run_op_cases py_str REQUEST_HEADER new_session_headers net op st)
    as [[_ Hrun] | [(Hc & Hnr & _) | (m & e & _ & Hrun)]].
  - rewrite Hrun, close_session_run. reflexivity.
  - destruct op; try (destruct Hnr; exact I);
      try (destruct Hc as [x Hx]; discriminate Hx).
    + (* check_app_version *)
      simpl in Hnr |- *.
      destruct (std_params st !! "imei") as [imei|] eqn:Hi;
        [destruct Hnr; eexists; reflexivity|].
      rewrite (check_app_version_no_imei net st Hi). unfold final. simpl.
      apply lookup_insert_ne. intros <-. apply Hk. repeat constructor.
    + (* set_user_preference *)
      simpl.
      destruct (py_not_in store_for ["Arm"; "Bypass"]) eqn:Hv.
      { unfold set_user_preference. rewrite Hv. reflexivity. }
      assert (Hbad : (forall s, site_id <> PyStr s)
                     \/ (forall s, partition_id <> PyStr s)).
      { destruct site_id; try (left; intros s' H; discriminate H).
        destruct partition_id; try (right; intros s' H; discriminate H).
        exfalso. apply Hnr. simpl.
        destruct store_for; try discriminate Hv.
        unfold py_not_in, forallb, py_ne_str in Hv.
        rewrite andb_true_r in Hv.
        apply andb_false_iff in Hv as [Hv|Hv];
          apply negb_false_iff, String.eqb_eq in Hv; auto. }
      rewrite (set_user_preference_bad_ids net _ _ _ _ st Hv Hbad).
      unfold final. simpl.
      rewrite !lookup_insert_ne; [reflexivity| |];
        intros <-; apply Hk; repeat constructor.
  - rewrite Hrun.
    destruct (api_outcome_final py_str net m e (error_prefix op) op
                (op_state op st)) as (Hp & _).
    rewrite Hp. unfold op_state. simpl. apply op_params_other. exact Hk.
Qed.

Lemma op_keys_assigned op key : key ∈ op_keys op -> key ∈ assigned_keys.
Proof.
  unfold assigned_keys.
  destruct op; simpl; intros H;
    repeat (apply elem_of_cons in H as [-> | H];
            [repeat first [apply list_elem_of_here
                          | apply list_elem_of_further]|]);
    inversion H.
Qed.

(** X12: the entries of [STD_PARAMS] under keys that no method assigns,
    the client and protocol identifiers of the base mapping, are the same
    after any sequence of public method calls as before it. *)
Theorem base_parameters_are_preserved calls st key :
  key ∉ assigned_keys ->
  std_params (calls_from calls st) !! key = std_params st !! key.
Proof.
  intros Hk. revert st.
  induction calls as [|[net op] rest IH]; intros st; [reflexivity|].
  simpl. rewrite IH. apply run_op_params_other.
  intros H. apply Hk, (op_keys_assigned op), H.
Qed.

Lemma op_params_again op c c' base :
  (op <> Login -> c' = c) ->
  _email c' = _email c -> _password c' = _password c ->
  op_params op c' (op_params op c base) = op_params op c base.
Proof.
  intros Hc He Hp.
  destruct op; try (rewrite (Hc ltac:(discriminate))); simpl;
    rewrite ?He, ?Hp;
    rewrite ?lookup_insert_ne by done;
    repeat (rewrite insert_id
              by (repeat first [ rewrite lookup_insert_eq; reflexivity
                               | rewrite lookup_insert_ne by done ]));
    reflexivity.
Qed.

(** X13: calling the same method again with the same arguments sends the
    very same request: the parameters written by the first call are
    overwritten with equal values by the second. *)
Theorem repeated_call_sends_same_request net1 net2 op st q1 q2 :
  HttpCall q1 ∈ events (run net1 op st) ->
  HttpCall q2 ∈ events (run net2 op (final (run net1 op st))) ->
  q2 = q1.
Proof.
  intros H1 H2.
  pose proof (http_call_final py_str REQUEST_HEADER new_session_headers
                net1 op st q1 H1) as Hfin.
  destruct (http_call_outcome py_str REQUEST_HEADER new_session_headers
              net1 op st q1 H1) as (m & e & sid & Hc & Hs & Hq1 & _).
  destruct (http_call_outcome py_str REQUEST_HEADER new_session_headers
              net2 op _ q2 H2) as (m' & e' & sid' & Hc' & Hs' & Hq2 & _).
  rewrite Hc in Hc'. injection Hc' as <- <-.
  assert (Hsome : is_Some (op_call op)) by (rewrite Hc; eexists; reflexivity).
  destruct (api_op_frame py_str REQUEST_HEADER new_session_headers net1 op st
              Hsome) as (_ & Hself).
  assert (Hattr : (op <> Login -> self (final (run net1 op st)) = self st)
                  /\ _email (self (final (run net1 op st))) = _email (self st)
                  /\ _password (self (final (run net1 op st)))
                     = _password (self st)
                  /\ _session (self (final (run net1 op st)))
                     = _session (self st)
                  /\ _timeout (self (final (run net1 op st)))
                     = _timeout (self st)).
  { destruct Hself as [-> | (Hl & tok & ->)].
    - repeat split; reflexivity.
    - split; [intros Hne; destruct (Hne Hl)|]. repeat split; reflexivity. }
  destruct Hattr as (Hne & He & Hp & Hsess & Htime).
  rewrite Hsess, Hs in Hs'. injection Hs' as <-.
  rewrite Hq2. unfold request_of, op_state. simpl.
  rewrite Htime, Hfin.
  replace (req_params q1) with (op_params op (self st) (std_params st))
    by (rewrite Hq1; reflexivity).
  rewrite (op_params_again op (self st) _ (std_params st) Hne He Hp).
  rewrite Hq1. reflexivity.
Qed.

(** X14: [logout] does not forget the token: every other API method
    called after it still sends the token the client held before, now on
    the session that [logout] opened. *)
Theorem logout_keeps_token_in_use net B st q :
  B <> Login ->
  HttpCall q ∈ events
    (run net B (final (logout REQUEST_HEADER new_session_headers st))) ->
  req_params q !! "token" = Some (_token (self st))
  /\ req_session q = length (sessions st).
Proof.
  intros Hne Hq.
  destruct (http_call_outcome py_str REQUEST_HEADER new_session_headers
              net B _ q Hq) as (m & e & sid & Hc & Hs & -> & _).
  rewrite logout_run, close_session_run in Hs |- *.
  unfold final in Hs |- *. simpl in Hs |- *.
  injection Hs as <-. split; [|reflexivity].
  rewrite op_params_token;
    [reflexivity | rewrite Hc; eexists; reflexivity | exact Hne].
Qed.

End MoreProperties.
(** * Further examples *)


(** ** X2 *)

Lemma client_never_leaks_a_session_example :
  (forall i s, sessions example_blank !! i = Some s -> sess_closed s = true)
  /\ one_open_session
       (run_calls example_str example_headers example_session_headers
          example_calls
          (final (__init__ example_headers example_session_headers
                    (PyStr "user@example.com") (PyStr "hunter2") (PyInt 10)
                    PyNone example_blank))).
Proof.
  assert (H : forall i s,
             sessions example_blank !! i = Some s -> sess_closed s = true).
  { intros i s Hl. destruct i; discriminate Hl. }
  split; [exact H|].
  exact (client_never_leaks_a_session example_str example_headers
           example_session_headers (PyStr "user@example.com")
           (PyStr "hunter2") (PyInt 10) PyNone example_blank example_calls H).
Defined.

(** ** X3 *)

Lemma api_methods_keep_client_example :
  is_Some (op_call ArmSite_example)
  /\ ArmSite_example <> Login
  /\ sessions (final (xrun (always response_failure) ArmSite_example
                        example_state)) = sessions example_state
  /\ self (final (xrun (always response_failure) ArmSite_example
                    example_state)) = self example_state.
Proof.
  assert (H : is_Some (op_call ArmSite_example)) by (eexists; reflexivity).
  assert (Hne : ArmSite_example <> Login) by (intros Heq; discriminate Heq).
  pose proof (api_methods_keep_client example_str example_headers
                example_session_headers (always response_failure)
                ArmSite_example example_state H) as (Hs & _ & Hself & _).
  split; [exact H|]. split; [exact Hne|]. split; [exact Hs|].
  exact (Hself Hne).
Defined.

(** ** X4 *)

Lemma returned_payload_example :
  is_Some (op_call GetSyncInfo)
  /\ result (xrun (always response_success) GetSyncInfo example_state)
     = inr example_success
  /\ exists q r d,
       HttpCall q
         ∈ events (xrun (always response_success) GetSyncInfo example_state)
       /\ always response_success q = Respond r
       /\ ~ (400 <= status_code r < 600)
       /\ json_body r = inr example_success
       /\ example_success = PyDict d
       /\ d !! "status" = Some (PyStr "SUCCESS").
Proof.
  assert (H : is_Some (op_call GetSyncInfo)) by (eexists; reflexivity).
  assert (Hres : result (xrun (always response_success) GetSyncInfo
                           example_state) = inr example_success).
  { vm_compute. reflexivity. }
  split; [exact H|]. split; [exact Hres|].
  exact (returned_payload_has_status_SUCCESS example_str example_headers
           example_session_headers (always response_success) GetSyncInfo
           example_state example_success H Hres).
Defined.

(** ** X5 *)

Lemma issued_request_example :
  HttpCall (example_request POST API_ENDPOINT_STORE_GCM_REGISTRATION_ID
              (StoreGcmRegistrationid (PyStr "gcm-1")))
    ∈ events (xrun (always response_success)
                (StoreGcmRegistrationid (PyStr "gcm-1")) example_state)
  /\ exists m e,
       op_call (StoreGcmRegistrationid (PyStr "gcm-1")) = Some (m, e)
       /\ req_method
            (example_request POST API_ENDPOINT_STORE_GCM_REGISTRATION_ID
               (StoreGcmRegistrationid (PyStr "gcm-1"))) = m
       /\ req_url
            (example_request POST API_ENDPOINT_STORE_GCM_REGISTRATION_ID
               (StoreGcmRegistrationid (PyStr "gcm-1")))
          = "https://" +:+ BASE_URL +:+ e
       /\ req_allow_redirects
            (example_request POST API_ENDPOINT_STORE_GCM_REGISTRATION_ID
               (StoreGcmRegistrationid (PyStr "gcm-1"))) = false
       /\ req_timeout
            (example_request POST API_ENDPOINT_STORE_GCM_REGISTRATION_ID
               (StoreGcmRegistrationid (PyStr "gcm-1")))
          = _timeout (self example_state)
       /\ _session (self example_state)
          = Some (req_session
                    (example_request POST
                       API_ENDPOINT_STORE_GCM_REGISTRATION_ID
                       (StoreGcmRegistrationid (PyStr "gcm-1"))))
       /\ req_params
            (example_request POST API_ENDPOINT_STORE_GCM_REGISTRATION_ID
               (StoreGcmRegistrationid (PyStr "gcm-1")))
          = op_params (StoreGcmRegistrationid (PyStr "gcm-1"))
              (self example_state) (std_params example_state).
Proof.
  assert (H : HttpCall (example_request POST
                          API_ENDPOINT_STORE_GCM_REGISTRATION_ID
                          (StoreGcmRegistrationid (PyStr "gcm-1")))
                ∈ events (xrun (always response_success)
                            (StoreGcmRegistrationid (PyStr "gcm-1"))
                            example_state)).
  { vm_compute. apply list_elem_of_here. }
  split; [exact H|].
  exact (issued_request_is_well_formed example_str example_headers
           example_session_headers (always response_success)
           (StoreGcmRegistrationid (PyStr "gcm-1")) example_state _ H).
Defined.

(** ** X6 *)

Lemma one_round_trip_example :
  is_Some (op_call Login)
  /\ (events (xrun (always response_success) Login example_state) = []
      \/ exists q,
           events (xrun (always response_success) Login example_state)
           = [HttpCall q]
           \/ exists r,
                always response_success q = Respond r
                /\ events (xrun (always response_success) Login
                             example_state) = [HttpCall q; JsonDecode r]).
Proof.
  assert (H : is_Some (op_call Login)) by (eexists; reflexivity).
  split; [exact H|].
  exact (one_round_trip_at_most example_str example_headers
           example_session_headers (always response_success) Login
           example_state H).
Defined.

(** ** X7 *)

Lemma login_token_is_sent_next_example :
  result (xlogin (always response_success) example_state)
  = inr example_success
  /\ GetSyncInfo <> Login
  /\ HttpCall (request_after Login)
       ∈ events (xrun (always response_failure) GetSyncInfo
                   (final (xlogin (always response_success) example_state)))
  /\ req_params (request_after Login) !! "token" = Some (PyStr "abc123").
Proof.
  assert (Hres : result (xlogin (always response_success) example_state)
                 = inr (PyDict (<["status" := PyStr "SUCCESS"]>
                                  (<["token" := PyStr "abc123"]> ∅)))).
  { vm_compute. reflexivity. }
  assert (Hne : GetSyncInfo <> Login) by (intros H; discriminate H).
  assert (Hq : HttpCall (request_after Login)
                 ∈ events (xrun (always response_failure) GetSyncInfo
                             (final (xlogin (always response_success)
                                       example_state)))).
  { vm_compute. apply list_elem_of_here. }
  split; [exact Hres|]. split; [exact Hne|]. split; [exact Hq|].
  exact (login_token_is_sent_next example_str example_headers
           example_session_headers (always response_success)
           (always response_failure) example_state
           (<["status" := PyStr "SUCCESS"]> (<["token" := PyStr "abc123"]> ∅))
           (PyStr "abc123") GetSyncInfo (request_after Login) Hres eq_refl
           Hne Hq).
Defined.

(** ** X8 *)


(** ** X9 *)


(** ** X10 *)

Lemma check_app_version_without_imei_example :
  std_params example_state_no_imei !! "imei" = None
  /\ result (check_app_version example_str (always response_success)
               example_state_no_imei) = inl (KeyError "imei")
  /\ events (check_app_version example_str (always response_success)
               example_state_no_imei) = [].
Proof.
  assert (H : std_params example_state_no_imei !! "imei" = None)
    by reflexivity.
  destruct (check_app_version_needs_imei example_str
              (always response_success) example_state_no_imei H)
    as (Hres & Hev & _).
  split; [exact H|]. split; [exact Hres|exact Hev].
Defined.

(** ** X11 *)

Lemma set_user_preference_default_ids_example :
  (PyStr "Arm" = PyStr "Arm" \/ PyStr "Arm" = PyStr "Bypass")
  /\ (forall s, PyNone <> PyStr s)
  /\ result (set_user_preference example_str (always response_success)
               PyNone PyNone (PyInt 1234) (PyStr "Arm") example_state)
     = inl TypeError
  /\ events (set_user_preference example_str (always response_success)
               PyNone PyNone (PyInt 1234) (PyStr "Arm") example_state) = [].
Proof.
  assert (H : forall s, PyNone <> PyStr s) by (intros s Hs; discriminate Hs).
  destruct (set_user_preference_needs_string_ids example_str
              (always response_success) PyNone PyNone (PyInt 1234)
              (PyStr "Arm") example_state (or_introl eq_refl) (or_introl H))
    as (Hres & Hev & _).
  split; [left; reflexivity|]. split; [exact H|].
  split; [exact Hres|exact Hev].
Defined.

(** ** X12 *)

Lemma base_parameters_example :
  ("imei" ∉ assigned_keys)
  /\ std_params
       (run_calls example_str example_headers example_session_headers
          example_calls example_state) !! "imei"
     = std_params example_state !! "imei"
  /\ std_params example_state !! "imei" = Some (PyStr "0").
Proof.
  assert (H : "imei" ∉ assigned_keys).
  { unfold assigned_keys. intros Hin.
    repeat (apply elem_of_cons in Hin as [Hin|Hin]; [discriminate Hin|]).
    inversion Hin. }
  split; [exact H|]. split; [|vm_compute; reflexivity].
  exact (base_parameters_are_preserved example_str example_headers
           example_session_headers example_calls example_state "imei" H).
Defined.

(** ** X13 *)

Lemma repeated_call_example :
  HttpCall (example_request GET API_ENDPOINT_ARM_SITE ArmSite_example)
    ∈ events (xrun (always response_failure) ArmSite_example example_state)
  /\ HttpCall (request_again_arm)
       ∈ events (xrun (always response_success) ArmSite_example
                   (final (xrun (always response_failure) ArmSite_example
                             example_state)))
  /\ request_again_arm
     = example_request GET API_ENDPOINT_ARM_SITE ArmSite_example.
Proof.
  assert (H1 : HttpCall (example_request GET API_ENDPOINT_ARM_SITE
                           ArmSite_example)
                 ∈ events (xrun (always response_failure) ArmSite_example
                             example_state)).
  { vm_compute. apply list_elem_of_here. }
  assert (H2 : HttpCall (request_again_arm)
                 ∈ events (xrun (always response_success) ArmSite_example
                             (final (xrun (always response_failure)
                                       ArmSite_example example_state)))).
  { vm_compute. apply list_elem_of_here. }
  split; [exact H1|]. split; [exact H2|].
  exact (repeated_call_sends_same_request example_str example_headers
           example_session_headers (always response_failure)
           (always response_success) ArmSite_example example_state
           (example_request GET API_ENDPOINT_ARM_SITE ArmSite_example)
           (request_again_arm) H1 H2).
Defined.

(** ** X14 *)

Lemma logout_keeps_token_example :
  GetSyncInfo <> Login
  /\ HttpCall request_after_logout
       ∈ events
           (xrun (always response_success) GetSyncInfo
              (final (logout example_headers example_session_headers
                        example_state_logged_in)))
  /\ req_params request_after_logout !! "token"
     = Some (_token (self example_state_logged_in))
  /\ req_session request_after_logout
     = length (sessions example_state_logged_in)
  /\ _token (self example_state_logged_in) = PyStr "abc123".
Proof.
  assert (Hne : GetSyncInfo <> Login) by (intros H; discriminate H).
  assert (Hq : HttpCall request_after_logout
                 ∈ events
                     (xrun (always response_success) GetSyncInfo
                        (final (logout example_headers example_session_headers
                                  example_state_logged_in)))).
  { vm_compute. apply list_elem_of_here. }
  split; [exact Hne|]. split; [exact Hq|].
  destruct (logout_keeps_token_in_use example_str example_headers
              example_session_headers (always response_success) GetSyncInfo
              example_state_logged_in request_after_logout Hne Hq)
    as (Htok & Hsid).
  split; [exact Htok|]. split; [exact Hsid|].
  vm_compute. reflexivity.
Defined.
